(** * aws-wp: provisioning one EC2 instance and waiting until it runs

    A shallow embedding of [aws-wp.go].  The program is a sequential script
    over the EC2 client: every remote call, every line printed, every sleep
    is recorded in a trace, the remote service is an abstract state that
    answers the calls, and Go's panics and [log.Fatal] are outcomes of their
    own.  The only loop, in [waitRunning], has no bound in the source; here it
    runs on fuel, and running out of fuel is a fourth outcome. *)

From Stdlib Require Import String List ZArith Lia Bool Arith.
Import ListNotations.
Open Scope string_scope.
Open Scope list_scope.

(** ** Values of the Go program *)

(** A Go [error].  [errors.As(err, &ae)] with [ae : smithy.APIError] succeeds
    exactly when the chain of [err] holds an API error, whose [ErrorCode()]
    is then [errCode]. *)
Record error := mkError { errText : string; errCode : option string }.

(** The SDK's structs, with the fields the program reads or writes.  A field
    of pointer type ([*string], [*int32], [*types.InstanceState]) is an
    [option]: [None] is the nil pointer. *)
Record SecurityGroup := { sg_GroupId : option string }.
Record DescribeSecurityGroupsInput := { GroupNames : list string }.
Record DescribeSecurityGroupsOutput := { SecurityGroups : list SecurityGroup }.

Record CreateSecurityGroupInput :=
  { GroupName : option string; Description : option string }.
Record CreateSecurityGroupOutput := { GroupId : option string }.

Record IpRange := { CidrIp : option string }.
Record Ipv6Range := { CidrIpv6 : option string }.
Record IpPermission :=
  { FromPort : option Z; ToPort : option Z; IpProtocol : option string;
    IpRanges : list IpRange; Ipv6Ranges : list Ipv6Range }.
Record AuthorizeSecurityGroupIngressInput :=
  { asg_GroupId : option string; IpPermissions : list IpPermission }.

Record InstanceState := { Code : option Z }.
Record Instance :=
  { InstanceId : option string; State : option InstanceState;
    PublicDnsName : option string }.
Record RunInstancesInput :=
  { ImageId : option string; InstanceType : string;
    MinCount : option Z; MaxCount : option Z;
    SecurityGroupIds : list string }.
Record RunInstancesOutput := { Instances : list Instance }.

Record Tag := { Key : option string; Value : option string }.
Record CreateTagsInput := { Resources : list string; Tags : list Tag }.

Record DescribeInstancesInput := { InstanceIds : list string }.
Record Reservation := { r_Instances : list Instance }.
Record DescribeInstancesOutput := { Reservations : list Reservation }.

(** What [fmt.Println] is given: a string or an error. *)
Inductive printed := PStr (s : string) | PErr (e : error).

(** ** Traces *)

Inductive event :=
| EvLoadDefaultConfig
| EvDescribeSecurityGroups (i : DescribeSecurityGroupsInput)
| EvCreateSecurityGroup (i : CreateSecurityGroupInput)
| EvAuthorizeSecurityGroupIngress (i : AuthorizeSecurityGroupIngressInput)
| EvRunInstances (i : RunInstancesInput)
| EvCreateTags (i : CreateTagsInput)
| EvDescribeInstances (i : DescribeInstancesInput)
| EvPrintln (v : printed)
| EvLogPrintf (format : string)
| EvLogFatal (e : error)
| EvSleep (seconds : Z)
| EvStart (name : string) (args : list string).

(** The six operations of the remote API (section 6 of the specification). *)
Definition isRemoteCall (e : event) : bool :=
  match e with
  | EvDescribeSecurityGroups _ | EvCreateSecurityGroup _
  | EvAuthorizeSecurityGroupIngress _ | EvRunInstances _
  | EvCreateTags _ | EvDescribeInstances _ => true
  | _ => false
  end.

Definition isCreateGroup (e : event) : bool :=
  match e with EvCreateSecurityGroup _ => true | _ => false end.

Definition isAuthorize (e : event) : bool :=
  match e with EvAuthorizeSecurityGroupIngress _ => true | _ => false end.

Definition isQuery (e : event) : bool :=
  match e with EvDescribeInstances _ => true | _ => false end.

Definition isOutput (e : event) : bool :=
  match e with EvPrintln _ | EvLogPrintf _ | EvLogFatal _ => true | _ => false end.

(** How often an event of a kind occurs in a trace. *)
Definition occurrences (p : event -> bool) (t : list event) : nat :=
  length (filter p t).

(** The durations slept, in order. *)
Fixpoint sleeps (t : list event) : list Z :=
  match t with
  | [] => []
  | EvSleep s :: t' => s :: sleeps t'
  | _ :: t' => sleeps t'
  end.

(** ** Outcomes and the program monad *)

Inductive outcome (A : Type) :=
| Done (a : A)              (* the function returned [a] *)
| Panicked (msg : string)   (* a run-time panic, or [panic(msg)] *)
| Exited (code : Z)         (* [os.Exit], from [log.Fatal] *)
| OutOfFuel.                (* the poll loop was cut off by the model *)
Arguments Done {A} a.
Arguments Panicked {A} msg.
Arguments Exited {A} code.
Arguments OutOfFuel {A}.

(** A program reads and advances the world and emits a trace. *)
Definition prog (W A : Type) : Type := W -> outcome A * W * list event.

Definition ret {W A} (a : A) : prog W A := fun w => (Done a, w, []).

Definition bind {W A B} (m : prog W A) (k : A -> prog W B) : prog W B :=
  fun w =>
    match m w with
    | (Done a, w1, t1) =>
        match k a w1 with (r, w2, t2) => (r, w2, t1 ++ t2) end
    | (Panicked msg, w1, t1) => (Panicked msg, w1, t1)
    | (Exited c, w1, t1) => (Exited c, w1, t1)
    | (OutOfFuel, w1, t1) => (OutOfFuel, w1, t1)
    end.

Declare Scope prog_scope.
Delimit Scope prog_scope with prog.
Notation "x <- m ;; k" := (bind m (fun x => k))
  (at level 61, m at next level, right associativity) : prog_scope.
Notation "m ;;; k" := (bind m (fun _ => k))
  (at level 61, right associativity) : prog_scope.
Open Scope prog_scope.

Definition emit {W} (e : event) : prog W unit := fun w => (Done tt, w, [e]).
Definition panic {W A} (msg : string) : prog W A := fun w => (Panicked msg, w, []).
Definition outOfFuel {W A} : prog W A := fun w => (OutOfFuel, w, []).

(** [*p]: dereferencing nil panics. *)
Definition deref {W A} (p : option A) : prog W A :=
  match p with
  | Some a => ret a
  | None => panic "invalid memory address or nil pointer dereference"
  end.

(** [s[0]]: indexing an empty slice panics. *)
Definition firstOf {W A} (s : list A) : prog W A :=
  match s with
  | a :: _ => ret a
  | [] => panic "index out of range [0] with length 0"
  end.

Definition Println {W} (v : printed) : prog W unit := emit (EvPrintln v).
Definition LogPrintf {W} (format : string) : prog W unit := emit (EvLogPrintf format).
Definition Sleep {W} (seconds : Z) : prog W unit := emit (EvSleep seconds).

(** [log.Fatal(err)]: the error is logged and the process exits with 1;
    deferred functions do not run. *)
Definition LogFatal {W A} (e : error) : prog W A :=
  fun w => (Exited 1, w, [EvLogFatal e]).

(** [defer f()] around a body: [f] runs when the body returns or panics. *)
Definition defer {W A} (f : prog W unit) (body : prog W A) : prog W A :=
  fun w =>
    match body w with
    | (Done a, w1, t1) =>
        match f w1 with (_, w2, t2) => (Done a, w2, t1 ++ t2) end
    | (Panicked msg, w1, t1) =>
        match f w1 with (_, w2, t2) => (Panicked msg, w2, t1 ++ t2) end
    | other => other
    end.

(** ** The environment

    The remote service and the host, as the program observes them: each
    operation answers from the current state of the world and advances it.
    A Go call returning [(output, err)] answers [inl output] when [err] is
    nil and [inr err] otherwise. *)
Class Env (W : Type) := {
  LoadDefaultConfig : W -> option error * W;
  DescribeSecurityGroups :
    DescribeSecurityGroupsInput -> W -> (DescribeSecurityGroupsOutput + error) * W;
  CreateSecurityGroup :
    CreateSecurityGroupInput -> W -> (CreateSecurityGroupOutput + error) * W;
  AuthorizeSecurityGroupIngress :
    AuthorizeSecurityGroupIngressInput -> W -> (unit + error) * W;
  RunInstances : RunInstancesInput -> W -> (RunInstancesOutput + error) * W;
  CreateTags : CreateTagsInput -> W -> (unit + error) * W;
  DescribeInstances :
    DescribeInstancesInput -> W -> (DescribeInstancesOutput + error) * W;
  (* exec.Command(name, args...).Start() *)
  Start : string -> list string -> W -> option error * W
}.

(** A call: the event is recorded, the world answers. *)
Definition call {W R} (e : event) (op : W -> R * W) : prog W R :=
  fun w => match op w with (r, w1) => (Done r, w1, [e]) end.

Section Program.
Context {W : Type} {env : Env W}.

(** Lines 99-137 of [getSecurityGroup]: the rule set is created and its one
    ingress rule authorized.  What [AuthorizeSecurityGroupIngress] returns
    is dropped by the source. *)
Definition getSecurityGroup_create (groupName : string) : prog W string :=
  let sgInput :=
    {| GroupName := Some groupName;
       Description := Some "Security group for wordpress" |} in
  r <- call (EvCreateSecurityGroup sgInput) (CreateSecurityGroup sgInput) ;;
  match r with
  | inr err =>
      Println (PStr "Got an error creating an security group:") ;;;
      Println (PErr err) ;;;
      ret ""
  | inl securityGroup =>
      let permissions :=
        [ {| FromPort := Some 80%Z; ToPort := Some 80%Z;
             IpProtocol := Some "tcp";
             IpRanges := [ {| CidrIp := Some "0.0.0.0/0" |} ];
             Ipv6Ranges := [ {| CidrIpv6 := Some "::/0" |} ] |} ] in
      let sgIngressInput :=
        {| asg_GroupId := GroupId securityGroup;
           IpPermissions := permissions |} in
      _ <- call (EvAuthorizeSecurityGroupIngress sgIngressInput)
                (AuthorizeSecurityGroupIngress sgIngressInput) ;;
      deref (GroupId securityGroup)
  end.

Definition getSecurityGroup : prog W string :=
  let groupName := "wordpress-sg" in
  let describeSecurityGroupsInput := {| GroupNames := [groupName] |} in
  r <- call (EvDescribeSecurityGroups describeSecurityGroupsInput)
            (DescribeSecurityGroups describeSecurityGroupsInput) ;;
  match r with
  | inl describeSecurityGroup =>
      (* err == nil *)
      if (0 <? length (SecurityGroups describeSecurityGroup))%nat then
        g <- firstOf (SecurityGroups describeSecurityGroup) ;;
        deref (sg_GroupId g)
      else getSecurityGroup_create groupName
  | inr err =>
      (* err != nil *)
      match errCode err with
      | Some code =>
          (* errors.As(err, &ae) *)
          if negb (String.eqb code "InvalidGroup.NotFound") then
            Println (PStr "Got an error retrieving information about security griop:") ;;;
            Println (PStr groupName) ;;;
            Println (PErr err) ;;;
            ret ""
          else getSecurityGroup_create groupName
      | None => getSecurityGroup_create groupName
      end
  end.

Definition setTagName (instanceId : string) : prog W unit :=
  let tagInput :=
    {| Resources := [instanceId];
       Tags := [ {| Key := Some "Name"; Value := Some "WordPress" |} ] |} in
  r <- call (EvCreateTags tagInput) (CreateTags tagInput) ;;
  match r with
  | inr err =>
      Println (PStr "Got an error tagging the instance:") ;;;
      Println (PErr err)
  | inl _ => ret tt
  end.

Definition createInstance (imageId : string) : prog W string :=
  securityGroupId <- getSecurityGroup ;;
  let instancesInput :=
    {| ImageId := Some imageId;
       InstanceType := "t2.micro";
       MinCount := Some 1%Z;
       MaxCount := Some 1%Z;
       SecurityGroupIds := [securityGroupId] |} in
  r <- call (EvRunInstances instancesInput) (RunInstances instancesInput) ;;
  match r with
  | inr err =>
      Println (PStr "Got an error creating an instance:") ;;;
      Println (PErr err) ;;;
      ret ""
  | inl result =>
      i <- firstOf (Instances result) ;;
      instanceId <- deref (InstanceId i) ;;
      setTagName instanceId ;;;
      ret instanceId
  end.

(** The body of [for _, i := range r.Instances]: [Some s] when the function
    returns [s] from inside the loop, [None] when the range is exhausted.
    The source reads [*i.State.Code] in both comparisons; it is read once
    here, the second read being of the same pointers. *)
Fixpoint scanInstances (instances : list Instance) : prog W (option string) :=
  match instances with
  | [] => ret None
  | i :: rest =>
      st <- deref (State i) ;;
      code <- deref (Code st) ;;
      if (code =? 16)%Z then
        Sleep 7 ;;;
        dns <- deref (PublicDnsName i) ;;
        ret (Some ("http://" ++ dns)%string)
      else if negb (code =? 0)%Z then
        Println (PStr "Got an error creating an instance") ;;;
        ret (Some "")
      else
        LogPrintf "Still pending..." ;;;
        scanInstances rest
  end.

(** [for _, r := range result.Reservations]. *)
Fixpoint scanReservations (rs : list Reservation) : prog W (option string) :=
  match rs with
  | [] => ret None
  | r :: rest =>
      v <- scanInstances (r_Instances r) ;;
      match v with
      | Some s => ret (Some s)
      | None => scanReservations rest
      end
  end.

(** The source's [for { ... }] has no bound; [fuel] is the number of
    iterations the model is allowed. *)
Fixpoint waitRunning (fuel : nat) (instanceId : string) : prog W string :=
  match fuel with
  | O => outOfFuel
  | S fuel' =>
      let input := {| InstanceIds := [instanceId] |} in
      r <- call (EvDescribeInstances input) (DescribeInstances input) ;;
      match r with
      | inr err =>
          Println (PStr "Got an error retrieving information about your Amazon EC2 instances:") ;;;
          Println (PErr err) ;;;
          ret ""
      | inl result =>
          v <- scanReservations (Reservations result) ;;
          match v with
          | Some s => ret s
          | None => Sleep 3 ;;; waitRunning fuel' instanceId
          end
      end
  end.

Definition createClient : prog W unit :=
  r <- call EvLoadDefaultConfig LoadDefaultConfig ;;
  match r with
  | Some err => panic ("Configuration error, " ++ errText err)%string
  | None => ret tt
  end.

(** [goos] is [runtime.GOOS]. *)
Definition openBrowser (goos : string) (url : string) : prog W unit :=
  err <-
    (if String.eqb goos "linux" then
       call (EvStart "xdg-open" [url]) (Start "xdg-open" [url])
     else if String.eqb goos "windows" then
       call (EvStart "rundll32" ["url.dll,FileProtocolHandler"; url])
            (Start "rundll32" ["url.dll,FileProtocolHandler"; url])
     else if String.eqb goos "darwin" then
       call (EvStart "open" [url]) (Start "open" [url])
     else ret (Some (mkError "unsupported platform" None))) ;;
  match err with
  | Some e =>
      Println (PStr "Got an error open browser:") ;;;
      Println (PErr e) ;;;
      LogFatal e
  | None => ret tt
  end.

Definition duration : prog W unit := LogPrintf "Start-up time: %v\n".

(** [imageId] is the value of the [-ami] flag after [flag.Parse()]. *)
Definition main (fuel : nat) (goos : string) (imageId : string) : prog W unit :=
  defer duration
    (if String.eqb imageId "" then
       Println (PStr "You must supply an AMI")
     else
       createClient ;;;
       instanceId <- createInstance imageId ;;
       publicDnsName <- waitRunning fuel instanceId ;;
       if negb (String.eqb publicDnsName "") then openBrowser goos publicDnsName
       else ret tt).

End Program.

(** ** The requests the program sends *)

Definition groupLookup : DescribeSecurityGroupsInput :=
  {| GroupNames := ["wordpress-sg"] |}.

Definition groupCreation : CreateSecurityGroupInput :=
  {| GroupName := Some "wordpress-sg";
     Description := Some "Security group for wordpress" |}.

(** TCP port 80 from everywhere, over IPv4 and IPv6. *)
Definition webIngress (groupId : option string) : AuthorizeSecurityGroupIngressInput :=
  {| asg_GroupId := groupId;
     IpPermissions :=
       [ {| FromPort := Some 80%Z; ToPort := Some 80%Z;
            IpProtocol := Some "tcp";
            IpRanges := [ {| CidrIp := Some "0.0.0.0/0" |} ];
            Ipv6Ranges := [ {| CidrIpv6 := Some "::/0" |} ] |} ] |}.

Definition launchInput (imageId securityGroupId : string) : RunInstancesInput :=
  {| ImageId := Some imageId;
     InstanceType := "t2.micro";
     MinCount := Some 1%Z;
     MaxCount := Some 1%Z;
     SecurityGroupIds := [securityGroupId] |}.

Definition tagInput (instanceId : string) : CreateTagsInput :=
  {| Resources := [instanceId];
     Tags := [ {| Key := Some "Name"; Value := Some "WordPress" |} ] |}.

(** ** What the poll loop observes *)

Section Polling.
Context {W : Type} {env : Env W}.

(** The request [waitRunning] repeats. *)
Definition pollInput (instanceId : string) : DescribeInstancesInput :=
  {| InstanceIds := [instanceId] |}.

(** The world after [n] status queries, and the answer to query number [n]
    (the first query is number 0). *)
Fixpoint pollState (input : DescribeInstancesInput) (n : nat) (w : W) : W :=
  match n with
  | O => w
  | S n' => pollState input n' (snd (DescribeInstances input w))
  end.

Definition pollResponse (input : DescribeInstancesInput) (n : nat) (w : W)
  : DescribeInstancesOutput + error :=
  fst (DescribeInstances input (pollState input n w)).

End Polling.

(** The instances of a response, in the order the two nested ranges visit
    them. *)
Definition instancesOf (out : DescribeInstancesOutput) : list Instance :=
  flat_map r_Instances (Reservations out).

(** [*i.State.Code], when neither pointer is nil. *)
Definition stateCode (i : Instance) : option Z :=
  match State i with
  | Some st => Code st
  | None => None
  end.

Definition hasCode (c : Z) (i : Instance) : bool :=
  match stateCode i with
  | Some c' => (c' =? c)%Z
  | None => false
  end.

(** Status code 0 is pending (and 16 is running). *)
Definition isPending : Instance -> bool := hasCode 0.

(** A response that keeps the loop polling: a successful answer in which
    every instance listed is pending. *)
Definition pendingResponse (r : DescribeInstancesOutput + error) : bool :=
  match r with
  | inl out => forallb isPending (instancesOf out)
  | inr _ => false
  end.

(** A successful answer that lists no instance at all. *)
Definition emptyResponse (r : DescribeInstancesOutput + error) : bool :=
  match r with
  | inl out => match instancesOf out with [] => true | _ => false end
  | inr _ => false
  end.

(** [i] is the instance of [l] at which the two ranges stop: every
    instance visited before it was pending. *)
Definition decidedBy (l : list Instance) (i : Instance) : Prop :=
  exists pend rest, l = pend ++ i :: rest /\ forallb isPending pend = true.

(** What [waitRunning] returns when instance [i] decides: the address of
    a running instance, or the empty string for any status code other
    than 0 and 16. *)
Definition verdictOf (i : Instance) (s : string) : Prop :=
  (stateCode i = Some 16%Z /\
   exists dns, PublicDnsName i = Some dns /\ s = ("http://" ++ dns)%string)
  \/ (exists c, stateCode i = Some c /\ c <> 0%Z /\ c <> 16%Z /\ s = "").

(** A trace put in front of a run's trace. *)
Definition after {W A} (t0 : list event) (x : outcome A * W * list event)
  : outcome A * W * list event :=
  match x with (r, w, t) => (r, w, t0 ++ t) end.

(** The notices one pending response leaves in the log. *)
Definition stillPending (n : nat) : list event :=
  repeat (EvLogPrintf "Still pending...") n.

(** The trace of [n] rounds of the loop that found nothing to report. *)
Fixpoint idlePolling (input : DescribeInstancesInput) (n : nat) : list event :=
  match n with
  | O => []
  | S n' => EvDescribeInstances input :: EvSleep 3 :: idlePolling input n'
  end.

(** ** A scripted environment

    Each operation answers from a script: the answers still to come, in
    order, and the answer given for ever once they are used up. *)
Record script (R : Type) := Script { upcoming : list R; thereafter : R }.
Arguments Script {R} upcoming thereafter.
Arguments upcoming {R} s.
Arguments thereafter {R} s.

Definition next {R} (s : script R) : R * script R :=
  match upcoming s with
  | r :: rest => (r, Script rest (thereafter s))
  | [] => (thereafter s, s)
  end.

Record Scripted := mkScripted {
  onLoadDefaultConfig : script (option error);
  onDescribeSecurityGroups : script (DescribeSecurityGroupsOutput + error);
  onCreateSecurityGroup : script (CreateSecurityGroupOutput + error);
  onAuthorizeSecurityGroupIngress : script (unit + error);
  onRunInstances : script (RunInstancesOutput + error);
  onCreateTags : script (unit + error);
  onDescribeInstances : script (DescribeInstancesOutput + error);
  onStart : script (option error)
}.

#[export] Instance scriptedEnv : Env Scripted := {|
  LoadDefaultConfig w :=
    let (r, s) := next (onLoadDefaultConfig w) in
    (r, mkScripted s (onDescribeSecurityGroups w) (onCreateSecurityGroup w)
          (onAuthorizeSecurityGroupIngress w) (onRunInstances w)
          (onCreateTags w) (onDescribeInstances w) (onStart w));
  DescribeSecurityGroups _ w :=
    let (r, s) := next (onDescribeSecurityGroups w) in
    (r, mkScripted (onLoadDefaultConfig w) s (onCreateSecurityGroup w)
          (onAuthorizeSecurityGroupIngress w) (onRunInstances w)
          (onCreateTags w) (onDescribeInstances w) (onStart w));
  CreateSecurityGroup _ w :=
    let (r, s) := next (onCreateSecurityGroup w) in
    (r, mkScripted (onLoadDefaultConfig w) (onDescribeSecurityGroups w) s
          (onAuthorizeSecurityGroupIngress w) (onRunInstances w)
          (onCreateTags w) (onDescribeInstances w) (onStart w));
  AuthorizeSecurityGroupIngress _ w :=
    let (r, s) := next (onAuthorizeSecurityGroupIngress w) in
    (r, mkScripted (onLoadDefaultConfig w) (onDescribeSecurityGroups w)
          (onCreateSecurityGroup w) s (onRunInstances w)
          (onCreateTags w) (onDescribeInstances w) (onStart w));
  RunInstances _ w :=
    let (r, s) := next (onRunInstances w) in
    (r, mkScripted (onLoadDefaultConfig w) (onDescribeSecurityGroups w)
          (onCreateSecurityGroup w) (onAuthorizeSecurityGroupIngress w) s
          (onCreateTags w) (onDescribeInstances w) (onStart w));
  CreateTags _ w :=
    let (r, s) := next (onCreateTags w) in
    (r, mkScripted (onLoadDefaultConfig w) (onDescribeSecurityGroups w)
          (onCreateSecurityGroup w) (onAuthorizeSecurityGroupIngress w)
          (onRunInstances w) s (onDescribeInstances w) (onStart w));
  DescribeInstances _ w :=
    let (r, s) := next (onDescribeInstances w) in
    (r, mkScripted (onLoadDefaultConfig w) (onDescribeSecurityGroups w)
          (onCreateSecurityGroup w) (onAuthorizeSecurityGroupIngress w)
          (onRunInstances w) (onCreateTags w) s (onStart w));
  Start _ _ w :=
    let (r, s) := next (onStart w) in
    (r, mkScripted (onLoadDefaultConfig w) (onDescribeSecurityGroups w)
          (onCreateSecurityGroup w) (onAuthorizeSecurityGroupIngress w)
          (onRunInstances w) (onCreateTags w) (onDescribeInstances w) s)
|}.

(** Errors and answers used in the scenarios below. *)
Definition apiError (code text : string) : error := mkError text (Some code).
Definition transportError (text : string) : error := mkError text None.

Definition groupNotFound : error :=
  apiError "InvalidGroup.NotFound"
           "The security group 'wordpress-sg' does not exist in default VPC".

Definition instanceWith (code : Z) (dns : string) : Instance :=
  {| InstanceId := Some "i-abc";
     State := Some {| Code := Some code |};
     PublicDnsName := Some dns |}.

Definition statusOf (i : Instance) : DescribeInstancesOutput + error :=
  inl {| Reservations := [ {| r_Instances := [i] |} ] |}.

Definition nothingListed : DescribeInstancesOutput + error :=
  inl {| Reservations := [] |}.

(** A world in which every call succeeds: the rule set exists, the launch
    gives instance [i-abc], and the status queries answer from [statuses],
    then for ever [last]. *)
Definition quietWorld (statuses : list (DescribeInstancesOutput + error))
    (last : DescribeInstancesOutput + error) : Scripted :=
  {| onLoadDefaultConfig := Script [] None;
     onDescribeSecurityGroups :=
       Script [] (inl {| SecurityGroups := [ {| sg_GroupId := Some "sg-123" |} ] |});
     onCreateSecurityGroup := Script [] (inl {| GroupId := Some "sg-new" |});
     onAuthorizeSecurityGroupIngress := Script [] (inl tt);
     onRunInstances :=
       Script [] (inl {| Instances := [ instanceWith 0 "" ] |});
     onCreateTags := Script [] (inl tt);
     onDescribeInstances := Script statuses last;
     onStart := Script [] None |}.

Definition withGroupLookup (s : script (DescribeSecurityGroupsOutput + error))
    (w : Scripted) : Scripted :=
  mkScripted (onLoadDefaultConfig w) s (onCreateSecurityGroup w)
    (onAuthorizeSecurityGroupIngress w) (onRunInstances w)
    (onCreateTags w) (onDescribeInstances w) (onStart w).

Definition withAuthorize (s : script (unit + error)) (w : Scripted) : Scripted :=
  mkScripted (onLoadDefaultConfig w) (onDescribeSecurityGroups w)
    (onCreateSecurityGroup w) s (onRunInstances w)
    (onCreateTags w) (onDescribeInstances w) (onStart w).

Definition withCreateTags (s : script (unit + error)) (w : Scripted) : Scripted :=
  mkScripted (onLoadDefaultConfig w) (onDescribeSecurityGroups w)
    (onCreateSecurityGroup w) (onAuthorizeSecurityGroupIngress w)
    (onRunInstances w) s (onDescribeInstances w) (onStart w).

(** *** Scenarios *)

Definition pendingStatus : DescribeInstancesOutput + error :=
  statusOf (instanceWith 0 "").

(** Pending twice, then running at a public address. *)
Definition worldBootsUp : Scripted :=
  quietWorld
    [pendingStatus; pendingStatus;
     statusOf (instanceWith 16 "ec2-1-2-3-4.compute.amazonaws.com")]
    nothingListed.

(** Pending once, then status code 48 (terminated); were the loop to ask
    again it would find the instance running. *)
Definition worldTerminates : Scripted :=
  quietWorld [pendingStatus; statusOf (instanceWith 48 "")]
             (statusOf (instanceWith 16 "ec2-1-2-3-4.compute.amazonaws.com")).

Definition requestLimit : error :=
  apiError "RequestLimitExceeded" "Request limit exceeded.".

(** Pending once, then the query itself fails; were the loop to ask again
    it would find the instance running. *)
Definition worldQueryFails : Scripted :=
  quietWorld [pendingStatus; inr requestLimit]
             (statusOf (instanceWith 16 "ec2-1-2-3-4.compute.amazonaws.com")).

(** The status queries succeed and list nothing, for ever. *)
Definition worldListsNothing : Scripted := quietWorld [] nothingListed.

Definition groupListed (groupId : string) : DescribeSecurityGroupsOutput + error :=
  inl {| SecurityGroups := [ {| sg_GroupId := Some groupId |} ] |}.

(** The lookup of the rule set fails below the API: no answer came back,
    so the error carries no error code. *)
Definition worldLookupTimesOut : Scripted :=
  withGroupLookup
    (Script [inr (transportError "dial tcp: i/o timeout")] (groupListed "sg-123"))
    (quietWorld [] nothingListed).

(** The rule set does not exist and is created, and the ingress rule is
    then refused. *)
Definition ingressRefused : error :=
  apiError "UnauthorizedOperation"
           "You are not authorized to perform this operation.".

Definition worldAuthorizeFails : Scripted :=
  withAuthorize (Script [] (inr ingressRefused))
    (withGroupLookup (Script [] (inr groupNotFound))
       (quietWorld [] nothingListed)).

(** The rule set is missing at the first lookup and listed from then on. *)
Definition worldGroupMissingOnce : Scripted :=
  withGroupLookup (Script [inr groupNotFound] (groupListed "sg-new"))
    (quietWorld [] nothingListed).

(** Tagging is refused. *)
Definition tagLimit : error :=
  apiError "TagLimitExceeded" "Too many tags".

Definition worldTagFails : Scripted :=
  withCreateTags (Script [] (inr tagLimit)) (quietWorld [] nothingListed).

(** The lookup is refused by the API with a code of its own. *)
Definition lookupDenied : error :=
  apiError "RequestLimitExceeded" "Request limit exceeded.".

Definition worldLookupDenied : Scripted :=
  withGroupLookup (Script [] (inr lookupDenied)) (quietWorld [] nothingListed).

(** The rule set does not exist and its creation is refused. *)
Definition groupLimit : error :=
  apiError "SecurityGroupLimitExceeded" "The maximum number of security groups has been reached.".

Definition withCreateGroup (s : script (CreateSecurityGroupOutput + error))
    (w : Scripted) : Scripted :=
  mkScripted (onLoadDefaultConfig w) (onDescribeSecurityGroups w) s
    (onAuthorizeSecurityGroupIngress w) (onRunInstances w)
    (onCreateTags w) (onDescribeInstances w) (onStart w).

Definition worldCreateFails : Scripted :=
  withCreateGroup (Script [] (inr groupLimit))
    (withGroupLookup (Script [] (inr groupNotFound))
       (quietWorld [] nothingListed)).

(** The end-to-end scenario of the specification: image [ami-123], the
    rule set exists, the launch gives [i-abc], and the status is pending
    and then running at a public address. *)
Definition worldEndToEnd : Scripted :=
  quietWorld
    [pendingStatus;
     statusOf (instanceWith 16 "ec2-1-2-3-4.compute.amazonaws.com")]
    nothingListed.

(** ** Shapes of runs *)

(** Every event a program can emit, from any world, satisfies [P]. *)
Definition emits {W A} (P : event -> Prop) (m : prog W A) : Prop :=
  forall w, Forall P (snd (m w)).

(** A program leaves the process only through [log.Fatal]: with exit code 1
    and the logged error as its last event. *)
Definition exitsFatally {W A} (m : prog W A) : Prop :=
  forall w c w' t,
    m w = (Exited c, w', t) ->
    c = 1%Z /\ exists e t0, t = t0 ++ [EvLogFatal e].

Definition isStart (e : event) : bool :=
  match e with EvStart _ _ => true | _ => false end.

Definition isLaunch (e : event) : bool :=
  match e with EvRunInstances _ => true | _ => false end.

Definition isTagging (e : event) : bool :=
  match e with EvCreateTags _ => true | _ => false end.

(** The events of the poll loop for an instance. *)
Definition pollerEvent (instanceId : string) (e : event) : Prop :=
  e = EvDescribeInstances (pollInput instanceId)
  \/ e = EvSleep 3 \/ e = EvSleep 7
  \/ e = EvLogPrintf "Still pending..."
  \/ exists v, e = EvPrintln v.

(** The start-up time notice of the deferred [duration]. *)
Definition startUpNotice : event := EvLogPrintf "Start-up time: %v\n".

(** *** Further scenarios *)

Definition withConfig (s : script (option error)) (w : Scripted) : Scripted :=
  mkScripted s (onDescribeSecurityGroups w) (onCreateSecurityGroup w)
    (onAuthorizeSecurityGroupIngress w) (onRunInstances w)
    (onCreateTags w) (onDescribeInstances w) (onStart w).

Definition withRunInstances (s : script (RunInstancesOutput + error))
    (w : Scripted) : Scripted :=
  mkScripted (onLoadDefaultConfig w) (onDescribeSecurityGroups w)
    (onCreateSecurityGroup w) (onAuthorizeSecurityGroupIngress w) s
    (onCreateTags w) (onDescribeInstances w) (onStart w).

Definition withStart (s : script (option error)) (w : Scripted) : Scripted :=
  mkScripted (onLoadDefaultConfig w) (onDescribeSecurityGroups w)
    (onCreateSecurityGroup w) (onAuthorizeSecurityGroupIngress w)
    (onRunInstances w) (onCreateTags w) (onDescribeInstances w) s.

(** No credentials can be resolved. *)
Definition noCredentials : error :=
  transportError "failed to retrieve credentials".

Definition worldConfigFails : Scripted :=
  withConfig (Script [] (Some noCredentials)) worldEndToEnd.

(** The image does not exist: the launch is refused. *)
Definition imageNotFound : error :=
  apiError "InvalidAMIID.NotFound" "The image id '[ami-123]' does not exist".

Definition worldLaunchFails : Scripted :=
  withRunInstances (Script [] (inr imageNotFound))
    (quietWorld [] (inr requestLimit)).

(** The launch succeeds and lists no instance. *)
Definition worldLaunchEmpty : Scripted :=
  withRunInstances (Script [] (inl {| Instances := [] |}))
    (quietWorld [] nothingListed).

(** The lookup of the rule set succeeds and lists no group. *)
Definition worldNoGroupListed : Scripted :=
  withGroupLookup (Script [] (inl {| SecurityGroups := [] |}))
    (quietWorld [] nothingListed).

(** There is no [xdg-open] on the host. *)
Definition notInPath : error :=
  transportError "exec: xdg-open: executable file not found in $PATH".

Definition worldBrowserFails : Scripted :=
  withStart (Script [] (Some notInPath)) worldEndToEnd.

(** An instance reported without its state. *)
Definition statelessInstance : Instance :=
  {| InstanceId := Some "i-abc"; State := None; PublicDnsName := None |}.

Definition worldNoState : Scripted :=
  quietWorld [pendingStatus; statusOf statelessInstance] nothingListed.

(** * Properties *)

(** ** Traces and prefixes *)

Lemma sleeps_app (t1 t2 : list event) : sleeps (t1 ++ t2) = sleeps t1 ++ sleeps t2.
Proof.
  induction t1 as [|e t1 IH]; simpl; [reflexivity|].
  destruct e; simpl; rewrite IH; reflexivity.
Qed.

Lemma occurrences_app (p : event -> bool) (t1 t2 : list event) :
  occurrences p (t1 ++ t2) = occurrences p t1 + occurrences p t2.
Proof.
  unfold occurrences. rewrite filter_app, length_app. reflexivity.
Qed.

Lemma occurrences_cons (p : event -> bool) (e : event) (t : list event) :
  occurrences p (e :: t) = (if p e then 1 else 0) + occurrences p t.
Proof. unfold occurrences. simpl. destruct (p e); reflexivity. Qed.

Lemma sleeps_stillPending (n : nat) : sleeps (stillPending n) = [].
Proof. induction n; simpl; auto. Qed.

Lemma occurrences_stillPending (p : event -> bool) (n : nat) :
  p (EvLogPrintf "Still pending...") = false ->
  occurrences p (stillPending n) = 0.
Proof.
  intros Hp. unfold occurrences, stillPending.
  induction n; simpl; [reflexivity|]. rewrite Hp. exact IHn.
Qed.

Lemma after_nil {W A} (x : outcome A * W * list event) : after [] x = x.
Proof. destruct x as [[r w] t]; reflexivity. Qed.

Lemma after_after {W A} (t1 t2 : list event) (x : outcome A * W * list event) :
  after t1 (after t2 x) = after (t1 ++ t2) x.
Proof. destruct x as [[r w] t]; simpl. rewrite app_assoc. reflexivity. Qed.

(** ** The monad, run *)

Lemma bind_Done {W A B} (m : prog W A) (k : A -> prog W B) w a w1 t1 :
  m w = (Done a, w1, t1) -> bind m k w = after t1 (k a w1).
Proof. intros H. unfold bind, after. rewrite H. reflexivity. Qed.

Lemma bind_emit {W B} (e : event) (k : unit -> prog W B) (w : W) :
  bind (emit e) k w = after [e] (k tt w).
Proof. apply bind_Done. reflexivity. Qed.

Lemma bind_ret {W A B} (a : A) (k : A -> prog W B) (w : W) :
  bind (ret a) k w = k a w.
Proof. rewrite (bind_Done _ _ w a w []) by reflexivity. apply after_nil. Qed.

Lemma bind_call {W R B} (e : event) (op : W -> R * W) (k : R -> prog W B) w r w1 :
  op w = (r, w1) -> bind (call e op) k w = after [e] (k r w1).
Proof. intros H. apply bind_Done. unfold call. rewrite H. reflexivity. Qed.

Lemma bind_assoc {W A B C} (m : prog W A) (k : A -> prog W B) (h : B -> prog W C) w :
  bind (bind m k) h w = bind m (fun a => bind (k a) h) w.
Proof.
  unfold bind. destruct (m w) as [[[a| | |] w1] t1]; try reflexivity.
  destruct (k a w1) as [[[b| | |] w2] t2]; try reflexivity.
  destruct (h b w2) as [[r w3] t3]. rewrite app_assoc. reflexivity.
Qed.

Lemma bind_ext {W A B} (m : prog W A) (k k' : A -> prog W B) w :
  (forall a w', k a w' = k' a w') -> bind m k w = bind m k' w.
Proof.
  intros H. unfold bind. destruct (m w) as [[[a| | |] w1] t1]; try reflexivity.
  rewrite H. reflexivity.
Qed.

Lemma bind_stops {W A B} (m : prog W A) (k : A -> prog W B) w r w1 t1 :
  m w = (r, w1, t1) -> (forall a, r <> Done a) ->
  exists r', bind m k w = (r', w1, t1) /\ (forall b, r' <> Done b).
Proof.
  intros H Hr. unfold bind. rewrite H.
  destruct r as [a| msg | c |].
  - destruct (Hr a eq_refl).
  - exists (Panicked msg). split; [reflexivity | discriminate].
  - exists (Exited c). split; [reflexivity | discriminate].
  - exists OutOfFuel. split; [reflexivity | discriminate].
Qed.

Section PollerFacts.
Context {W : Type} {env : Env W}.

Lemma isPending_code (i : Instance) :
  isPending i = true -> exists st, State i = Some st /\ Code st = Some 0%Z.
Proof.
  unfold isPending, hasCode, stateCode.
  destruct (State i) as [st|]; [|discriminate].
  destruct (Code st) as [c|] eqn:Hc; [|discriminate].
  intros H. apply Z.eqb_eq in H. subst c. exists st. split; [reflexivity | exact Hc].
Qed.

Lemma scanInstances_cons (i : Instance) (rest : list Instance) :
  @scanInstances W (i :: rest)
  = (st <- deref (State i) ;;
     code <- deref (Code st) ;;
     if (code =? 16)%Z then
       Sleep 7 ;;;
       dns <- deref (PublicDnsName i) ;;
       ret (Some ("http://" ++ dns)%string)
     else if negb (code =? 0)%Z then
       Println (PStr "Got an error creating an instance") ;;;
       ret (Some "")
     else
       LogPrintf "Still pending..." ;;;
       scanInstances rest).
Proof. reflexivity. Qed.

(** One pending instance: a notice is logged and the range goes on. *)
Lemma scanInstances_cons_pending (i : Instance) (rest : list Instance) (w : W) :
  isPending i = true ->
  scanInstances (i :: rest) w
  = after [EvLogPrintf "Still pending..."] (scanInstances rest w).
Proof.
  intros H. destruct (isPending_code i H) as (st & Hst & Hc).
  rewrite scanInstances_cons, Hst. unfold deref at 1. rewrite bind_ret. cbv beta.
  rewrite Hc. unfold deref at 1. rewrite bind_ret. cbv beta.
  change (0 =? 16)%Z with false. change (negb (0 =? 0)%Z) with false. cbv iota.
  unfold LogPrintf. rewrite bind_emit. reflexivity.
Qed.

Lemma scanInstances_pending (pend rest : list Instance) (w : W) :
  forallb isPending pend = true ->
  scanInstances (pend ++ rest) w
  = after (stillPending (length pend)) (scanInstances rest w).
Proof.
  induction pend as [|i pend IH]; intros H.
  - simpl. symmetry. apply after_nil.
  - simpl in H. apply andb_true_iff in H. destruct H as [Hi Hp].
    change ((i :: pend) ++ rest) with (i :: (pend ++ rest)).
    rewrite (scanInstances_cons_pending i _ w Hi), (IH Hp), after_after.
    reflexivity.
Qed.

(** The first instance that is not pending is running. *)
Lemma scanInstances_cons_running (i : Instance) (rest : list Instance) (w : W) dns :
  stateCode i = Some 16%Z -> PublicDnsName i = Some dns ->
  scanInstances (i :: rest) w
  = (Done (Some ("http://" ++ dns)%string), w, [EvSleep 7]).
Proof.
  unfold stateCode. intros Hc Hd.
  destruct (State i) as [st|] eqn:Hst; [|discriminate].
  rewrite scanInstances_cons, Hst. unfold deref at 1. rewrite bind_ret. cbv beta.
  rewrite Hc. unfold deref at 1. rewrite bind_ret. cbv beta.
  change (16 =? 16)%Z with true. cbv iota.
  unfold Sleep. rewrite bind_emit, Hd. unfold deref. rewrite bind_ret.
  reflexivity.
Qed.

(** The first instance that is not pending has another status code. *)
Lemma scanInstances_cons_failed (i : Instance) (rest : list Instance) (w : W) c :
  stateCode i = Some c -> c <> 0%Z -> c <> 16%Z ->
  scanInstances (i :: rest) w
  = (Done (Some ""), w, [EvPrintln (PStr "Got an error creating an instance")]).
Proof.
  unfold stateCode. intros Hc H0 H16.
  destruct (State i) as [st|] eqn:Hst; [|discriminate].
  rewrite scanInstances_cons, Hst. unfold deref at 1. rewrite bind_ret. cbv beta.
  rewrite Hc. unfold deref at 1. rewrite bind_ret. cbv beta.
  apply Z.eqb_neq in H0, H16. rewrite H16, H0. cbv iota. unfold negb.
  unfold Println. rewrite bind_emit. reflexivity.
Qed.

(** The two nested ranges visit the instances of the response in order. *)
Lemma scanInstances_app (l1 l2 : list Instance) (w : W) :
  scanInstances (l1 ++ l2) w
  = bind (scanInstances l1)
      (fun v => match v with
                | Some s => ret (Some s)
                | None => scanInstances l2
                end) w.
Proof.
  revert w. induction l1 as [|i l1 IH]; intros w.
  - simpl. rewrite bind_ret. reflexivity.
  - change ((i :: l1) ++ l2) with (i :: (l1 ++ l2)).
    rewrite !scanInstances_cons, bind_assoc.
    apply bind_ext; intros st w1. rewrite bind_assoc.
    apply bind_ext; intros c w2.
    destruct (c =? 16)%Z; [|destruct (negb (c =? 0)%Z)];
      rewrite bind_assoc; apply bind_ext; intros [] w3.
    + rewrite bind_assoc. apply bind_ext; intros d w4.
      rewrite bind_ret. reflexivity.
    + rewrite bind_ret. reflexivity.
    + apply IH.
Qed.

Lemma scanReservations_flat (rs : list Reservation) (w : W) :
  scanReservations rs w = scanInstances (flat_map r_Instances rs) w.
Proof.
  revert w. induction rs as [|r rs IH]; intros w; [reflexivity|].
  simpl. rewrite scanInstances_app. unfold bind.
  destruct (scanInstances (r_Instances r) w) as [[[v| | |] w1] t1]; try reflexivity.
  destruct v; [reflexivity|]. rewrite IH. reflexivity.
Qed.

Lemma waitRunning_S (fuel : nat) (instanceId : string) :
  @waitRunning W env (S fuel) instanceId
  = (r <- call (EvDescribeInstances (pollInput instanceId))
               (DescribeInstances (pollInput instanceId)) ;;
     match r with
     | inr err =>
         Println (PStr "Got an error retrieving information about your Amazon EC2 instances:") ;;;
         Println (PErr err) ;;;
         ret ""
     | inl result =>
         v <- scanReservations (Reservations result) ;;
         match v with
         | Some s => ret s
         | None => Sleep 3 ;;; waitRunning fuel instanceId
         end
     end).
Proof. reflexivity. Qed.

(** A response in which every instance is pending leaves one notice per
    instance and no verdict. *)
Lemma scanReservations_pending (out : DescribeInstancesOutput) (w : W) :
  forallb isPending (instancesOf out) = true ->
  scanReservations (Reservations out) w
  = (Done None, w, stillPending (length (instancesOf out))).
Proof.
  intros H. rewrite scanReservations_flat. fold (instancesOf out).
  rewrite <- (app_nil_r (instancesOf out)) at 1.
  rewrite (scanInstances_pending _ [] w H).
  cbn [scanInstances]. unfold ret, after. rewrite app_nil_r. reflexivity.
Qed.

Lemma scanReservations_running (out : DescribeInstancesOutput) (w : W)
    pend i rest dns :
  instancesOf out = pend ++ i :: rest ->
  forallb isPending pend = true ->
  stateCode i = Some 16%Z -> PublicDnsName i = Some dns ->
  scanReservations (Reservations out) w
  = (Done (Some ("http://" ++ dns)%string), w,
     stillPending (length pend) ++ [EvSleep 7]).
Proof.
  intros Hl Hp Hc Hd. rewrite scanReservations_flat. fold (instancesOf out).
  rewrite Hl, (scanInstances_pending _ _ w Hp).
  rewrite (scanInstances_cons_running i rest w dns Hc Hd). reflexivity.
Qed.

Lemma scanReservations_failed (out : DescribeInstancesOutput) (w : W)
    pend i rest c :
  instancesOf out = pend ++ i :: rest ->
  forallb isPending pend = true ->
  stateCode i = Some c -> c <> 0%Z -> c <> 16%Z ->
  scanReservations (Reservations out) w
  = (Done (Some ""), w,
     stillPending (length pend)
       ++ [EvPrintln (PStr "Got an error creating an instance")]).
Proof.
  intros Hl Hp Hc H0 H16. rewrite scanReservations_flat. fold (instancesOf out).
  rewrite Hl, (scanInstances_pending _ _ w Hp).
  rewrite (scanInstances_cons_failed i rest w c Hc H0 H16). reflexivity.
Qed.

(** *** One iteration of the loop, by the kind of the answer *)

Lemma waitRunning_step_error fuel instanceId (w : W) e w1 :
  DescribeInstances (pollInput instanceId) w = (inr e, w1) ->
  waitRunning (S fuel) instanceId w
  = (Done "", w1,
     [EvDescribeInstances (pollInput instanceId);
      EvPrintln (PStr "Got an error retrieving information about your Amazon EC2 instances:");
      EvPrintln (PErr e)]).
Proof.
  intros H. rewrite waitRunning_S, (bind_call _ _ _ _ _ _ H).
  unfold Println. rewrite !bind_emit. reflexivity.
Qed.

Lemma waitRunning_step_pending fuel instanceId (w : W) out w1 :
  DescribeInstances (pollInput instanceId) w = (inl out, w1) ->
  forallb isPending (instancesOf out) = true ->
  waitRunning (S fuel) instanceId w
  = after (EvDescribeInstances (pollInput instanceId)
             :: stillPending (length (instancesOf out)) ++ [EvSleep 3])
          (waitRunning fuel instanceId w1).
Proof.
  intros H Hp. rewrite waitRunning_S, (bind_call _ _ _ _ _ _ H).
  rewrite (bind_Done _ _ _ _ _ _ (scanReservations_pending out w1 Hp)).
  unfold Sleep. rewrite bind_emit, !after_after. reflexivity.
Qed.

Lemma waitRunning_step_running fuel instanceId (w : W) out w1 pend i rest dns :
  DescribeInstances (pollInput instanceId) w = (inl out, w1) ->
  instancesOf out = pend ++ i :: rest ->
  forallb isPending pend = true ->
  stateCode i = Some 16%Z -> PublicDnsName i = Some dns ->
  waitRunning (S fuel) instanceId w
  = (Done ("http://" ++ dns)%string, w1,
     EvDescribeInstances (pollInput instanceId)
       :: stillPending (length pend) ++ [EvSleep 7]).
Proof.
  intros H Hl Hp Hc Hd. rewrite waitRunning_S, (bind_call _ _ _ _ _ _ H).
  rewrite (bind_Done _ _ _ _ _ _ (scanReservations_running out w1 _ _ _ _ Hl Hp Hc Hd)).
  unfold ret, after. rewrite app_nil_r. reflexivity.
Qed.

Lemma waitRunning_step_failed fuel instanceId (w : W) out w1 pend i rest c :
  DescribeInstances (pollInput instanceId) w = (inl out, w1) ->
  instancesOf out = pend ++ i :: rest ->
  forallb isPending pend = true ->
  stateCode i = Some c -> c <> 0%Z -> c <> 16%Z ->
  waitRunning (S fuel) instanceId w
  = (Done "", w1,
     EvDescribeInstances (pollInput instanceId)
       :: stillPending (length pend)
       ++ [EvPrintln (PStr "Got an error creating an instance")]).
Proof.
  intros H Hl Hp Hc H0 H16. rewrite waitRunning_S, (bind_call _ _ _ _ _ _ H).
  rewrite (bind_Done _ _ _ _ _ _
             (scanReservations_failed out w1 _ _ _ _ Hl Hp Hc H0 H16)).
  unfold ret, after. rewrite app_nil_r. reflexivity.
Qed.

(** *** The queries of a world, one after the other *)

Lemma pollResponse_0 input (w : W) :
  pollResponse input 0 w = fst (DescribeInstances input w).
Proof. reflexivity. Qed.

Lemma pollResponse_S input n (w : W) :
  pollResponse input (S n) w
  = pollResponse input n (snd (DescribeInstances input w)).
Proof. reflexivity. Qed.

Lemma pollState_S_end input n (w : W) :
  pollState input (S n) w
  = snd (DescribeInstances input (pollState input n w)).
Proof.
  revert w. induction n as [|n IH]; intros w; [reflexivity|].
  change (pollState input (S (S n)) w)
    with (pollState input (S n) (snd (DescribeInstances input w))).
  rewrite IH. reflexivity.
Qed.

Lemma poll_split input n (w : W) :
  DescribeInstances input (pollState input n w)
  = (pollResponse input n w, pollState input (S n) w).
Proof.
  rewrite pollState_S_end. unfold pollResponse.
  destruct (DescribeInstances input (pollState input n w)); reflexivity.
Qed.

(** While the answers are pending the loop goes round: [n] pending answers
    cost [n] queries and [n] sleeps of three seconds, and the loop is then
    where it started, [n] queries later. *)
Lemma waitRunning_pending_prefix instanceId n : forall (w : W),
  (forall k, k < n ->
     pendingResponse (pollResponse (pollInput instanceId) k w) = true) ->
  exists t0,
    sleeps t0 = repeat 3%Z n /\
    occurrences isQuery t0 = n /\
    forall fuel,
      waitRunning (n + fuel) instanceId w
      = after t0 (waitRunning fuel instanceId
                    (pollState (pollInput instanceId) n w)).
Proof.
  induction n as [|n IH]; intros w H.
  - exists []. repeat split. intros fuel. symmetry. apply after_nil.
  - pose proof (H 0 (Nat.lt_0_succ n)) as H0.
    rewrite pollResponse_0 in H0.
    destruct (DescribeInstances (pollInput instanceId) w) as [r w1] eqn:Hq.
    destruct r as [out|e]; [|discriminate]. cbn [fst pendingResponse] in H0.
    destruct (IH w1) as (t0 & Hs & Hn & Hrun).
    { intros k Hk. specialize (H (S k) (proj1 (Nat.succ_lt_mono k n) Hk)).
      rewrite pollResponse_S, Hq in H. exact H. }
    exists (EvDescribeInstances (pollInput instanceId)
              :: stillPending (length (instancesOf out)) ++ [EvSleep 3] ++ t0).
    split; [|split].
    + cbn [sleeps]. rewrite sleeps_app, sleeps_stillPending.
      cbn [app sleeps repeat]. rewrite Hs. reflexivity.
    + rewrite occurrences_cons, !occurrences_app, occurrences_stillPending, Hn
        by reflexivity.
      reflexivity.
    + intros fuel. change (S n + fuel) with (S (n + fuel)).
      rewrite (waitRunning_step_pending _ _ _ _ _ Hq H0), Hrun, after_after.
      cbn [pollState]. rewrite Hq. cbn [snd].
      f_equal. cbn [app]. rewrite <- app_assoc. reflexivity.
Qed.

End PollerFacts.

(** ** Reading a finished run backwards *)

Section PollerInversion.
Context {W : Type} {env : Env W}.

Lemma scanInstances_nil_code (i : Instance) (rest : list Instance) (w : W) :
  stateCode i = None ->
  forall v, fst (fst (scanInstances (i :: rest) w)) <> Done v.
Proof.
  unfold stateCode. intros Hc v. rewrite scanInstances_cons.
  destruct (State i) as [st|].
  - unfold deref at 1. rewrite bind_ret. cbv beta. rewrite Hc.
    cbv beta iota delta [bind deref panic fst]. discriminate.
  - cbv beta iota delta [bind deref panic fst]. discriminate.
Qed.

Lemma scanInstances_running_nil_dns (i : Instance) (rest : list Instance) (w : W) :
  stateCode i = Some 16%Z -> PublicDnsName i = None ->
  forall v, fst (fst (scanInstances (i :: rest) w)) <> Done v.
Proof.
  unfold stateCode. intros Hc Hd v. rewrite scanInstances_cons.
  destruct (State i) as [st|]; [|discriminate].
  unfold deref at 1. rewrite bind_ret. cbv beta. rewrite Hc.
  unfold deref at 1. rewrite bind_ret. cbv beta.
  change (16 =? 16)%Z with true. cbv iota. rewrite Hd.
  cbv beta iota delta [bind deref panic fst Sleep emit]. discriminate.
Qed.

(** A range that finishes either saw only pending instances, or stopped
    at the first instance that was not, with that instance's verdict. *)
Lemma scanInstances_Done (l : list Instance) (w : W) v w1 t :
  scanInstances l w = (Done v, w1, t) ->
  w1 = w /\
  match v with
  | None => forallb isPending l = true
  | Some s => exists i, decidedBy l i /\ verdictOf i s
  end.
Proof.
  revert v w1 t. induction l as [|i l IH]; intros v w1 t H.
  - cbn [scanInstances] in H. unfold ret in H. injection H as <- <- _.
    split; reflexivity.
  - destruct (isPending i) eqn:Hi.
    + rewrite (scanInstances_cons_pending i l w Hi) in H.
      destruct (scanInstances l w) as [[r w2] t2] eqn:E. cbn [after] in H.
      injection H as -> -> _.
      destruct (IH _ _ _ eq_refl) as [-> Hv]. split; [reflexivity|].
      destruct v as [s|].
      * destruct Hv as (i0 & (pend & rest & Hl & Hp) & Hs).
        exists i0. split; [|exact Hs].
        exists (i :: pend), rest. split.
        -- rewrite Hl. reflexivity.
        -- cbn [forallb]. rewrite Hi, Hp. reflexivity.
      * cbn [forallb]. rewrite Hi, Hv. reflexivity.
    + destruct (stateCode i) as [c|] eqn:Hc.
      * assert (H0 : c <> 0%Z).
        { unfold isPending, hasCode in Hi. rewrite Hc in Hi.
          apply Z.eqb_neq. exact Hi. }
        destruct (Z.eq_dec c 16) as [->|H16].
        -- destruct (PublicDnsName i) as [dns|] eqn:Hd.
           ++ rewrite (scanInstances_cons_running i l w dns Hc Hd) in H.
              injection H as <- <- _. split; [reflexivity|].
              exists i. split.
              ** exists [], l. split; reflexivity.
              ** left. split; [exact Hc|]. exists dns. split; [exact Hd | reflexivity].
           ++ exfalso. apply (scanInstances_running_nil_dns i l w Hc Hd v).
              rewrite H. reflexivity.
        -- rewrite (scanInstances_cons_failed i l w c Hc H0 H16) in H.
           injection H as <- <- _. split; [reflexivity|].
           exists i. split.
           ++ exists [], l. split; reflexivity.
           ++ right. exists c. repeat split; assumption.
      * exfalso. apply (scanInstances_nil_code i l w Hc v).
        rewrite H. reflexivity.
Qed.

(** When the ranges end in a panic, so does the round. *)
Lemma waitRunning_step_scan_stops fuel instanceId (w w1 w2 : W) out r t2 :
  DescribeInstances (pollInput instanceId) w = (inl out, w1) ->
  scanReservations (Reservations out) w1 = (r, w2, t2) ->
  (forall v, r <> Done v) ->
  forall s, fst (fst (waitRunning (S fuel) instanceId w)) <> Done s.
Proof.
  intros Hq E Hr s. rewrite waitRunning_S, (bind_call _ _ _ _ _ _ Hq).
  destruct (bind_stops _ (fun v => match v with
                                   | Some s => ret s
                                   | None => Sleep 3 ;;; waitRunning fuel instanceId
                                   end) _ _ _ _ E Hr) as (r' & Hrun & Hne).
  rewrite Hrun. cbn [after fst]. apply Hne.
Qed.

(** A run of the loop that returns stopped at some query [n], after [n]
    pending answers: that query failed, or an instance of its answer
    decided. *)
Lemma waitRunning_Done (instanceId : string) (fuel : nat) :
  forall (w : W) s w' t,
    waitRunning fuel instanceId w = (Done s, w', t) ->
    exists n,
      n < fuel /\
      (forall k, k < n ->
         pendingResponse (pollResponse (pollInput instanceId) k w) = true) /\
      w' = pollState (pollInput instanceId) (S n) w /\
      ((exists e, pollResponse (pollInput instanceId) n w = inr e /\ s = "")
       \/ (exists out i,
             pollResponse (pollInput instanceId) n w = inl out /\
             decidedBy (instancesOf out) i /\ verdictOf i s)).
Proof.
  induction fuel as [|fuel IH]; intros w s w' t H.
  - discriminate H.
  - destruct (DescribeInstances (pollInput instanceId) w) as [[out|e] w1] eqn:Hq.
    + destruct (scanReservations (Reservations out) w1) as [[r w2] t2] eqn:E.
      destruct r as [v| msg | c |].
      * pose proof E as E'. rewrite scanReservations_flat in E'.
        fold (instancesOf out) in E'.
        apply scanInstances_Done in E'. destruct E' as [-> Hv].
        destruct v as [s0|].
        -- rewrite waitRunning_S, (bind_call _ _ _ _ _ _ Hq),
             (bind_Done _ _ _ _ _ _ E) in H.
           cbn [after ret] in H. injection H as <- <- _.
           exists 0. split; [apply Nat.lt_0_succ|]. split; [intros k Hk; lia|].
           split; [cbn [pollState]; rewrite Hq; reflexivity|].
           right. destruct Hv as (i & Hd & Hs). exists out, i.
           split; [rewrite pollResponse_0, Hq; reflexivity|]. split; assumption.
        -- rewrite (waitRunning_step_pending _ _ _ _ _ Hq Hv) in H.
           destruct (waitRunning fuel instanceId w1) as [[r3 w3] t3] eqn:E3.
           cbn [after] in H. injection H as -> -> _.
           destruct (IH _ _ _ _ E3) as (n & Hn & Hpre & Hw & Hend).
           exists (S n). split; [lia|]. split; [|split].
           ++ intros k Hk. destruct k as [|k].
              ** rewrite pollResponse_0, Hq. exact Hv.
              ** rewrite pollResponse_S, Hq. apply Hpre. lia.
           ++ rewrite Hw. cbn [pollState]. rewrite Hq. reflexivity.
           ++ rewrite pollResponse_S, Hq. exact Hend.
      * exfalso. apply (waitRunning_step_scan_stops fuel _ _ _ _ _ _ _ Hq E
                          ltac:(discriminate) s).
        rewrite H. reflexivity.
      * exfalso. apply (waitRunning_step_scan_stops fuel _ _ _ _ _ _ _ Hq E
                          ltac:(discriminate) s).
        rewrite H. reflexivity.
      * exfalso. apply (waitRunning_step_scan_stops fuel _ _ _ _ _ _ _ Hq E
                          ltac:(discriminate) s).
        rewrite H. reflexivity.
    + rewrite (waitRunning_step_error _ _ _ _ _ Hq) in H.
      injection H as <- <- _.
      exists 0. split; [apply Nat.lt_0_succ|]. split; [intros k Hk; lia|].
      split; [cbn [pollState]; rewrite Hq; reflexivity|].
      left. exists e. split; [rewrite pollResponse_0, Hq|]; reflexivity.
Qed.

(** An answer that stops the loop: a failed query, or an instance that is
    not plainly pending. *)
Lemma pendingResponse_false (r : DescribeInstancesOutput + error) :
  pendingResponse r = false ->
  (exists e, r = inr e)
  \/ (exists out i, r = inl out /\ In i (instancesOf out) /\ isPending i = false).
Proof.
  destruct r as [out|e]; [|intros _; left; exists e; reflexivity].
  cbn [pendingResponse]. intros H. right. exists out.
  induction (instancesOf out) as [|i l IH]; [discriminate|].
  cbn [forallb] in H. destruct (isPending i) eqn:Hi.
  - destruct (IH H) as (j & _ & Hj & Hp). exists j.
    split; [reflexivity | split; [right; exact Hj | exact Hp]].
  - exists i. split; [reflexivity | split; [left; reflexivity | exact Hi]].
Qed.

(** A run that ends in any other way than by using up its rounds met an
    answer that was not pending. *)
Lemma waitRunning_stops (instanceId : string) (fuel : nat) :
  forall (w : W) r w' t,
    waitRunning fuel instanceId w = (r, w', t) ->
    r <> OutOfFuel ->
    exists n,
      n < fuel /\
      pendingResponse (pollResponse (pollInput instanceId) n w) = false.
Proof.
  induction fuel as [|fuel IH]; intros w r w' t H Hr.
  - injection H as <- _ _. destruct (Hr eq_refl).
  - destruct (pendingResponse (pollResponse (pollInput instanceId) 0 w)) eqn:H0.
    + rewrite pollResponse_0 in H0.
      destruct (DescribeInstances (pollInput instanceId) w) as [[out|e] w1] eqn:Hq;
        [|discriminate].
      cbn [fst pendingResponse] in H0.
      rewrite (waitRunning_step_pending _ _ _ _ _ Hq H0) in H.
      destruct (waitRunning fuel instanceId w1) as [[r3 w3] t3] eqn:E3.
      cbn [after] in H. injection H as -> _ _.
      destruct (IH _ _ _ _ E3 Hr) as (n & Hn & Hp).
      exists (S n). split; [lia|]. rewrite pollResponse_S, Hq. exact Hp.
    + exists 0. split; [apply Nat.lt_0_succ | exact H0].
Qed.

End PollerInversion.

(** ** The readiness poller *)

Section Poller.
Context {W : Type} {env : Env W}.

(** C2.  When the first two status queries answer pending and the third
    answers running, [waitRunning] returns ["http://"] followed by the
    public address of the running instance of the third answer, after
    exactly three queries and three sleeps: three seconds after each
    pending answer, then the seven seconds of the settle interval; so it
    has slept (at least) twice before it returns. *)
Theorem waitRunning_pending_pending_running
    (instanceId : string) (w : W) (fuel : nat)
    (out : DescribeInstancesOutput) (pend rest : list Instance)
    (i : Instance) (dns : string) :
  pendingResponse (pollResponse (pollInput instanceId) 0 w) = true ->
  pendingResponse (pollResponse (pollInput instanceId) 1 w) = true ->
  pollResponse (pollInput instanceId) 2 w = inl out ->
  instancesOf out = pend ++ i :: rest ->
  forallb isPending pend = true ->
  stateCode i = Some 16%Z ->
  PublicDnsName i = Some dns ->
  3 <= fuel ->
  exists t,
    waitRunning fuel instanceId w
    = (Done ("http://" ++ dns)%string, pollState (pollInput instanceId) 3 w, t)
    /\ sleeps t = [3; 3; 7]%Z
    /\ 2 <= length (sleeps t)
    /\ occurrences isQuery t = 3.
Proof.
  intros H0 H1 H2 Hl Hp Hc Hd Hfuel.
  destruct (waitRunning_pending_prefix instanceId 2 w) as (t0 & Hs & Hn & Hrun).
  { intros k Hk. destruct k as [|[|k]]; [exact H0 | exact H1 | lia]. }
  replace fuel with (2 + S (fuel - 3)) by lia. rewrite Hrun.
  pose proof (poll_split (pollInput instanceId) 2 w) as Hq. rewrite H2 in Hq.
  rewrite (waitRunning_step_running _ _ _ _ _ _ _ _ _ Hq Hl Hp Hc Hd).
  eexists. split; [reflexivity|].
  assert (Hsl : sleeps (t0 ++ EvDescribeInstances (pollInput instanceId)
                           :: stillPending (length pend) ++ [EvSleep 7])
                = [3; 3; 7]%Z).
  { rewrite sleeps_app, Hs. cbn [sleeps].
    rewrite sleeps_app, sleeps_stillPending. reflexivity. }
  split; [exact Hsl | split].
  - rewrite Hsl. simpl. lia.
  - rewrite occurrences_app, occurrences_cons, occurrences_app,
      occurrences_stillPending, Hn by reflexivity.
    reflexivity.
Qed.

(** C6.  When the first answer that is not pending is a successful answer
    whose first instance that is not pending has a status code other than
    0 and 16, [waitRunning] returns the empty string on that answer: with
    [n] pending answers before it the run makes [n + 1] queries and the
    [n] sleeps that followed the pending answers, and its last act is the
    failure notice; no query and no sleep comes after it. *)
Theorem waitRunning_failure_code
    (instanceId : string) (w : W) (fuel n : nat)
    (out : DescribeInstancesOutput) (pend rest : list Instance)
    (i : Instance) (c : Z) :
  (forall k, k < n ->
     pendingResponse (pollResponse (pollInput instanceId) k w) = true) ->
  pollResponse (pollInput instanceId) n w = inl out ->
  instancesOf out = pend ++ i :: rest ->
  forallb isPending pend = true ->
  stateCode i = Some c -> c <> 0%Z -> c <> 16%Z ->
  n < fuel ->
  exists t0,
    waitRunning fuel instanceId w
    = (Done "", pollState (pollInput instanceId) (S n) w,
       t0 ++ [EvPrintln (PStr "Got an error creating an instance")])
    /\ occurrences isQuery t0 = S n
    /\ sleeps t0 = repeat 3%Z n.
Proof.
  intros Hpre Hn Hl Hp Hc H0 H16 Hfuel.
  destruct (waitRunning_pending_prefix instanceId n w Hpre) as (t0 & Hs & Hq & Hrun).
  replace fuel with (n + S (fuel - S n)) by lia. rewrite Hrun.
  pose proof (poll_split (pollInput instanceId) n w) as Hd. rewrite Hn in Hd.
  rewrite (waitRunning_step_failed _ _ _ _ _ _ _ _ _ Hd Hl Hp Hc H0 H16).
  exists (t0 ++ EvDescribeInstances (pollInput instanceId)
             :: stillPending (length pend)).
  split; [|split].
  - cbn [after]. rewrite <- app_assoc. reflexivity.
  - rewrite occurrences_app, occurrences_cons, occurrences_stillPending, Hq
      by reflexivity.
    cbn [isQuery]. lia.
  - rewrite sleeps_app, Hs. cbn [sleeps]. rewrite sleeps_stillPending.
    apply app_nil_r.
Qed.

(** C7.  When a status query fails, [waitRunning] returns the empty string
    at once: the failed query is the last one of the run, followed only by
    the two lines that report it.  With [n] pending answers before it the
    run makes [n + 1] queries, so the failed query is not tried again. *)
Theorem waitRunning_query_error
    (instanceId : string) (w : W) (fuel n : nat) (e : error) :
  (forall k, k < n ->
     pendingResponse (pollResponse (pollInput instanceId) k w) = true) ->
  pollResponse (pollInput instanceId) n w = inr e ->
  n < fuel ->
  exists t0,
    waitRunning fuel instanceId w
    = (Done "", pollState (pollInput instanceId) (S n) w,
       t0 ++ [EvDescribeInstances (pollInput instanceId);
              EvPrintln (PStr "Got an error retrieving information about your Amazon EC2 instances:");
              EvPrintln (PErr e)])
    /\ occurrences isQuery t0 = n
    /\ sleeps t0 = repeat 3%Z n.
Proof.
  intros Hpre Hn Hfuel.
  destruct (waitRunning_pending_prefix instanceId n w Hpre) as (t0 & Hs & Hq & Hrun).
  replace fuel with (n + S (fuel - S n)) by lia. rewrite Hrun.
  pose proof (poll_split (pollInput instanceId) n w) as Hd. rewrite Hn in Hd.
  rewrite (waitRunning_step_error _ _ _ _ _ Hd).
  exists t0. split; [reflexivity | split; assumption].
Qed.

End Poller.

(** C2 at [worldBootsUp]. *)
Lemma waitRunning_pending_pending_running_witness :
  exists t,
    waitRunning 3 "i-abc" worldBootsUp
    = (Done "http://ec2-1-2-3-4.compute.amazonaws.com",
       pollState (pollInput "i-abc") 3 worldBootsUp, t)
    /\ sleeps t = [3; 3; 7]%Z
    /\ 2 <= length (sleeps t)
    /\ occurrences isQuery t = 3.
Proof.
  apply (waitRunning_pending_pending_running "i-abc" worldBootsUp 3
           {| Reservations :=
                [ {| r_Instances :=
                       [instanceWith 16 "ec2-1-2-3-4.compute.amazonaws.com"] |} ] |}
           [] [] (instanceWith 16 "ec2-1-2-3-4.compute.amazonaws.com")
           "ec2-1-2-3-4.compute.amazonaws.com");
    first [reflexivity | lia].
Defined.

(** C6 at [worldTerminates]. *)
Lemma waitRunning_failure_code_witness :
  exists t0,
    waitRunning 5 "i-abc" worldTerminates
    = (Done "", pollState (pollInput "i-abc") 2 worldTerminates,
       t0 ++ [EvPrintln (PStr "Got an error creating an instance")])
    /\ occurrences isQuery t0 = 2
    /\ sleeps t0 = repeat 3%Z 1.
Proof.
  apply (waitRunning_failure_code "i-abc" worldTerminates 5 1
           {| Reservations := [ {| r_Instances := [instanceWith 48 ""] |} ] |}
           [] [] (instanceWith 48 "") 48%Z);
    try reflexivity; try discriminate; try lia.
  intros k Hk. destruct k as [|k]; [reflexivity | lia].
Defined.

(** C7 at [worldQueryFails]. *)
Lemma waitRunning_query_error_witness :
  exists t0,
    waitRunning 5 "i-abc" worldQueryFails
    = (Done "", pollState (pollInput "i-abc") 2 worldQueryFails,
       t0 ++ [EvDescribeInstances (pollInput "i-abc");
              EvPrintln (PStr "Got an error retrieving information about your Amazon EC2 instances:");
              EvPrintln (PErr requestLimit)])
    /\ occurrences isQuery t0 = 1
    /\ sleeps t0 = repeat 3%Z 1.
Proof.
  apply (waitRunning_query_error "i-abc" worldQueryFails 5 1 requestLimit);
    try reflexivity; try lia.
  intros k Hk. destruct k as [|k]; [reflexivity | lia].
Defined.

(** ** What the loop may return, and when it stops *)

Section PollerInvariants.
Context {W : Type} {env : Env W}.

(** C9.  Whatever [waitRunning] returns is the empty string or ["http://"]
    followed by the public address of an instance that some status query
    of the run reported with status code 16; so a string that is not empty
    is returned only for an instance observed running. *)
Theorem waitRunning_address_only_when_running
    (instanceId : string) (fuel : nat) (w w' : W) (s : string) (t : list event) :
  waitRunning fuel instanceId w = (Done s, w', t) ->
  s = ""
  \/ exists n out i dns,
       n < fuel /\
       pollResponse (pollInput instanceId) n w = inl out /\
       In i (instancesOf out) /\
       stateCode i = Some 16%Z /\
       PublicDnsName i = Some dns /\
       s = ("http://" ++ dns)%string.
Proof.
  intros H. apply waitRunning_Done in H.
  destruct H as (n & Hn & _ & _ & [(e & _ & Hs) | (out & i & Hr & Hd & Hv)]).
  - left. exact Hs.
  - destruct Hv as [(Hc & dns & Hdns & Hs) | (c & _ & _ & _ & Hs)].
    + right. exists n, out, i, dns. repeat split; try assumption.
      destruct Hd as (pend & rest & Hl & _). rewrite Hl. apply in_elt.
    + left. exact Hs.
Qed.

(** C10.  A successful answer that lists no instance is neither pending,
    running nor failed for [waitRunning]: the round consists of the query
    and the sleep of three seconds, nothing is printed or logged, and the
    loop asks again.  When every answer is such an answer the loop never
    returns: whatever the number of rounds allowed, they are all used up,
    each one a query and a sleep.  The loop ends, by returning or by a
    panic, only when some query failed or its answer held an instance
    that is not pending; and when it returns, a query failed or an
    instance had a status code other than 0. *)
Theorem waitRunning_nothing_listed (instanceId : string) :
  (forall (w w1 : W) (fuel : nat) (out : DescribeInstancesOutput),
     DescribeInstances (pollInput instanceId) w = (inl out, w1) ->
     instancesOf out = [] ->
     waitRunning (S fuel) instanceId w
     = after [EvDescribeInstances (pollInput instanceId); EvSleep 3]
             (waitRunning fuel instanceId w1))
  /\ (forall (w : W),
        (forall n, emptyResponse (pollResponse (pollInput instanceId) n w) = true) ->
        forall fuel,
          waitRunning fuel instanceId w
          = (OutOfFuel, pollState (pollInput instanceId) fuel w,
             idlePolling (pollInput instanceId) fuel)
          /\ occurrences isOutput (idlePolling (pollInput instanceId) fuel) = 0)
  /\ (forall (w w' : W) (fuel : nat) (r : outcome string) (t : list event),
        waitRunning fuel instanceId w = (r, w', t) ->
        r <> OutOfFuel ->
        exists n,
          n < fuel /\
          ((exists e, pollResponse (pollInput instanceId) n w = inr e)
           \/ (exists out i,
                 pollResponse (pollInput instanceId) n w = inl out /\
                 In i (instancesOf out) /\
                 isPending i = false)))
  /\ (forall (w w' : W) (fuel : nat) (s : string) (t : list event),
        waitRunning fuel instanceId w = (Done s, w', t) ->
        exists n,
          n < fuel /\
          ((exists e, pollResponse (pollInput instanceId) n w = inr e)
           \/ (exists out i c,
                 pollResponse (pollInput instanceId) n w = inl out /\
                 In i (instancesOf out) /\
                 stateCode i = Some c /\ c <> 0%Z))).
Proof.
  assert (Hstep : forall (w w1 : W) (fuel : nat) (out : DescribeInstancesOutput),
     DescribeInstances (pollInput instanceId) w = (inl out, w1) ->
     instancesOf out = [] ->
     waitRunning (S fuel) instanceId w
     = after [EvDescribeInstances (pollInput instanceId); EvSleep 3]
             (waitRunning fuel instanceId w1)).
  { intros w w1 fuel out Hq Hl.
    rewrite (waitRunning_step_pending fuel _ _ _ _ Hq) by (rewrite Hl; reflexivity).
    rewrite Hl. reflexivity. }
  split; [exact Hstep | split].
  - intros w H fuel. split.
    + revert w H. induction fuel as [|fuel IH]; intros w H; [reflexivity|].
      pose proof (H 0) as H0. rewrite pollResponse_0 in H0.
      destruct (DescribeInstances (pollInput instanceId) w) as [[out|e] w1] eqn:Hq;
        [|discriminate].
      cbn [fst emptyResponse] in H0.
      destruct (instancesOf out) as [|i l] eqn:Hl; [|discriminate].
      rewrite (Hstep _ _ _ _ Hq Hl), (IH w1).
      * cbn [after app pollState idlePolling]. rewrite Hq. reflexivity.
      * intros n. specialize (H (S n)). rewrite pollResponse_S, Hq in H. exact H.
    + induction fuel as [|fuel IH]; [reflexivity|].
      cbn [idlePolling]. rewrite !occurrences_cons, IH. reflexivity.
  - split.
    { intros w w' fuel r t H Hr.
      destruct (waitRunning_stops _ _ _ _ _ _ H Hr) as (n & Hn & Hp).
      exists n. split; [exact Hn|]. apply pendingResponse_false. exact Hp. }
    intros w w' fuel s t H. apply waitRunning_Done in H.
    destruct H as (n & Hn & _ & _ & [(e & He & _) | (out & i & Hr & Hd & Hv)]);
      exists n; (split; [exact Hn|]).
    + left. exists e. exact He.
    + right.
      assert (Hin : In i (instancesOf out)).
      { destruct Hd as (pend & rest & Hl & _). rewrite Hl. apply in_elt. }
      destruct Hv as [(Hc & _) | (c & Hc & H0 & _)].
      * exists out, i, 16%Z. repeat split; try assumption. discriminate.
      * exists out, i, c. repeat split; assumption.
Qed.

End PollerInvariants.

(** C9 at [worldBootsUp]. *)
Lemma waitRunning_address_only_when_running_witness :
  "http://ec2-1-2-3-4.compute.amazonaws.com" = ""
  \/ exists n out i dns,
       n < 3 /\
       pollResponse (pollInput "i-abc") n worldBootsUp = inl out /\
       In i (instancesOf out) /\
       stateCode i = Some 16%Z /\
       PublicDnsName i = Some dns /\
       "http://ec2-1-2-3-4.compute.amazonaws.com" = ("http://" ++ dns)%string.
Proof.
  apply (waitRunning_address_only_when_running "i-abc" 3 worldBootsUp
           (snd (fst (waitRunning 3 "i-abc" worldBootsUp)))
           "http://ec2-1-2-3-4.compute.amazonaws.com"
           (snd (waitRunning 3 "i-abc" worldBootsUp))).
  reflexivity.
Defined.

Lemma worldListsNothing_stays (n : nat) :
  pollState (pollInput "i-abc") n worldListsNothing = worldListsNothing.
Proof. induction n as [|n IH]; [reflexivity | exact IH]. Qed.

Lemma worldListsNothing_empty (n : nat) :
  emptyResponse (pollResponse (pollInput "i-abc") n worldListsNothing) = true.
Proof. unfold pollResponse. rewrite worldListsNothing_stays. reflexivity. Qed.

(** C10 at [worldListsNothing]: no number of rounds is enough. *)
Lemma waitRunning_nothing_listed_witness :
  (forall n,
     emptyResponse (pollResponse (pollInput "i-abc") n worldListsNothing) = true)
  /\ forall fuel,
       waitRunning fuel "i-abc" worldListsNothing
       = (OutOfFuel, pollState (pollInput "i-abc") fuel worldListsNothing,
          idlePolling (pollInput "i-abc") fuel)
       /\ occurrences isOutput (idlePolling (pollInput "i-abc") fuel) = 0.
Proof.
  split.
  - exact worldListsNothing_empty.
  - exact (proj1 (proj2 (waitRunning_nothing_listed "i-abc"))
             worldListsNothing worldListsNothing_empty).
Defined.

(** ** The security group resolver *)

Section ResolverFacts.
Context {W : Type} {env : Env W}.

Lemma getSecurityGroup_create_eq (groupName : string) :
  groupName = "wordpress-sg" ->
  @getSecurityGroup_create W env groupName
  = (r <- call (EvCreateSecurityGroup groupCreation)
               (CreateSecurityGroup groupCreation) ;;
     match r with
     | inr err =>
         Println (PStr "Got an error creating an security group:") ;;;
         Println (PErr err) ;;;
         ret ""
     | inl securityGroup =>
         _ <- call (EvAuthorizeSecurityGroupIngress (webIngress (GroupId securityGroup)))
                   (AuthorizeSecurityGroupIngress (webIngress (GroupId securityGroup))) ;;
         deref (GroupId securityGroup)
     end).
Proof. intros ->. reflexivity. Qed.

Lemma getSecurityGroup_eq :
  @getSecurityGroup W env
  = (r <- call (EvDescribeSecurityGroups groupLookup)
               (DescribeSecurityGroups groupLookup) ;;
     match r with
     | inl describeSecurityGroup =>
         if (0 <? length (SecurityGroups describeSecurityGroup))%nat then
           g <- firstOf (SecurityGroups describeSecurityGroup) ;;
           deref (sg_GroupId g)
         else getSecurityGroup_create "wordpress-sg"
     | inr err =>
         match errCode err with
         | Some code =>
             if negb (String.eqb code "InvalidGroup.NotFound") then
               Println (PStr "Got an error retrieving information about security griop:") ;;;
               Println (PStr "wordpress-sg") ;;;
               Println (PErr err) ;;;
               ret ""
             else getSecurityGroup_create "wordpress-sg"
         | None => getSecurityGroup_create "wordpress-sg"
         end
     end).
Proof. reflexivity. Qed.

(** The rule set is created and the ingress call made; whatever the
    ingress call answers, the identifier of the new rule set is returned. *)
Lemma getSecurityGroup_create_ok (w w1 w2 : W) sg (a : unit + error) gid :
  CreateSecurityGroup groupCreation w = (inl sg, w1) ->
  AuthorizeSecurityGroupIngress (webIngress (GroupId sg)) w1 = (a, w2) ->
  GroupId sg = Some gid ->
  getSecurityGroup_create "wordpress-sg" w
  = (Done gid, w2,
     [EvCreateSecurityGroup groupCreation;
      EvAuthorizeSecurityGroupIngress (webIngress (Some gid))]).
Proof.
  intros Hc Ha Hg. rewrite getSecurityGroup_create_eq by reflexivity.
  rewrite (bind_call _ _ _ _ _ _ Hc), (bind_call _ _ _ _ _ _ Ha), Hg.
  reflexivity.
Qed.

Lemma getSecurityGroup_create_refused (w w1 : W) e :
  CreateSecurityGroup groupCreation w = (inr e, w1) ->
  getSecurityGroup_create "wordpress-sg" w
  = (Done "", w1,
     [EvCreateSecurityGroup groupCreation;
      EvPrintln (PStr "Got an error creating an security group:");
      EvPrintln (PErr e)]).
Proof.
  intros Hc. rewrite getSecurityGroup_create_eq by reflexivity.
  rewrite (bind_call _ _ _ _ _ _ Hc). unfold Println. rewrite !bind_emit.
  reflexivity.
Qed.

Lemma getSecurityGroup_found (w w1 : W) out g rest gid :
  DescribeSecurityGroups groupLookup w = (inl out, w1) ->
  SecurityGroups out = g :: rest ->
  sg_GroupId g = Some gid ->
  getSecurityGroup w = (Done gid, w1, [EvDescribeSecurityGroups groupLookup]).
Proof.
  intros Hl Hs Hg. rewrite getSecurityGroup_eq, (bind_call _ _ _ _ _ _ Hl), Hs.
  cbn [length Nat.ltb Nat.leb firstOf]. rewrite bind_ret, Hg. reflexivity.
Qed.

(** The three ways into the creation of the rule set. *)
Lemma getSecurityGroup_not_found (w w1 : W) e :
  DescribeSecurityGroups groupLookup w = (inr e, w1) ->
  errCode e = Some "InvalidGroup.NotFound" ->
  getSecurityGroup w
  = after [EvDescribeSecurityGroups groupLookup]
          (getSecurityGroup_create "wordpress-sg" w1).
Proof.
  intros Hl He. rewrite getSecurityGroup_eq, (bind_call _ _ _ _ _ _ Hl), He.
  reflexivity.
Qed.

Lemma getSecurityGroup_no_code (w w1 : W) e :
  DescribeSecurityGroups groupLookup w = (inr e, w1) ->
  errCode e = None ->
  getSecurityGroup w
  = after [EvDescribeSecurityGroups groupLookup]
          (getSecurityGroup_create "wordpress-sg" w1).
Proof.
  intros Hl He. rewrite getSecurityGroup_eq, (bind_call _ _ _ _ _ _ Hl), He.
  reflexivity.
Qed.

Lemma getSecurityGroup_none_listed (w w1 : W) out :
  DescribeSecurityGroups groupLookup w = (inl out, w1) ->
  SecurityGroups out = [] ->
  getSecurityGroup w
  = after [EvDescribeSecurityGroups groupLookup]
          (getSecurityGroup_create "wordpress-sg" w1).
Proof.
  intros Hl Hs. rewrite getSecurityGroup_eq, (bind_call _ _ _ _ _ _ Hl), Hs.
  reflexivity.
Qed.

Lemma getSecurityGroup_other_code (w w1 : W) e code :
  DescribeSecurityGroups groupLookup w = (inr e, w1) ->
  errCode e = Some code ->
  code <> "InvalidGroup.NotFound" ->
  getSecurityGroup w
  = (Done "", w1,
     [EvDescribeSecurityGroups groupLookup;
      EvPrintln (PStr "Got an error retrieving information about security griop:");
      EvPrintln (PStr "wordpress-sg");
      EvPrintln (PErr e)]).
Proof.
  intros Hl He Hc. rewrite getSecurityGroup_eq, (bind_call _ _ _ _ _ _ Hl), He.
  apply String.eqb_neq in Hc. rewrite Hc. cbn [negb].
  unfold Println. rewrite !bind_emit. reflexivity.
Qed.

(** A run of the creation calls create once, and authorize at most once. *)
Lemma getSecurityGroup_create_calls (w : W) :
  occurrences isCreateGroup (snd (getSecurityGroup_create "wordpress-sg" w)) = 1
  /\ occurrences isAuthorize (snd (getSecurityGroup_create "wordpress-sg" w)) <= 1.
Proof.
  rewrite getSecurityGroup_create_eq by reflexivity.
  destruct (CreateSecurityGroup groupCreation w) as [[sg|e] w1] eqn:Hc;
    rewrite (bind_call _ _ _ _ _ _ Hc).
  - destruct (AuthorizeSecurityGroupIngress (webIngress (GroupId sg)) w1)
      as [a w2] eqn:Ha.
    rewrite (bind_call _ _ _ _ _ _ Ha).
    destruct (GroupId sg); split; cbv; lia.
  - unfold Println. rewrite !bind_emit. split; cbv; lia.
Qed.

(** A run of the resolver calls create at most once. *)
Lemma getSecurityGroup_creates_at_most_once (w : W) :
  occurrences isCreateGroup (snd (getSecurityGroup w)) <= 1.
Proof.
  assert (Hcreate : forall w1,
    occurrences isCreateGroup
      (snd (after [EvDescribeSecurityGroups groupLookup]
              (getSecurityGroup_create "wordpress-sg" w1))) <= 1).
  { intros w1. pose proof (getSecurityGroup_create_calls w1) as [H _].
    destruct (getSecurityGroup_create "wordpress-sg" w1) as [[r w2] t].
    cbn [after snd] in *. rewrite occurrences_app, H. cbv. lia. }
  destruct (DescribeSecurityGroups groupLookup w) as [[out|e] w1] eqn:Hl.
  - destruct (SecurityGroups out) as [|g rest] eqn:Hs.
    + rewrite (getSecurityGroup_none_listed _ _ _ Hl Hs). apply Hcreate.
    + rewrite getSecurityGroup_eq, (bind_call _ _ _ _ _ _ Hl), Hs.
      cbn [length Nat.ltb Nat.leb firstOf]. rewrite bind_ret.
      destruct (sg_GroupId g); cbv; lia.
  - destruct (errCode e) as [code|] eqn:He.
    + destruct (String.eqb_spec code "InvalidGroup.NotFound") as [->|Hn].
      * rewrite (getSecurityGroup_not_found _ _ _ Hl He). apply Hcreate.
      * rewrite (getSecurityGroup_other_code _ _ _ _ Hl He Hn). cbv. lia.
    + rewrite (getSecurityGroup_no_code _ _ _ Hl He). apply Hcreate.
Qed.

End ResolverFacts.

Section Resolver.
Context {W : Type} {env : Env W}.

(** C5.  In every state in which the lookup of ["wordpress-sg"] succeeds
    and lists at least one group, [getSecurityGroup] makes the lookup and
    no other call, so it does not call create, and it returns the
    identifier of the first group listed.  A run that finds the rule set
    left by an earlier run therefore adds no creation to it: the two runs
    together call create at most once. *)
Theorem getSecurityGroup_idempotent
    (w w1 : W) (out : DescribeSecurityGroupsOutput)
    (g : SecurityGroup) (rest : list SecurityGroup) (gid : string) :
  DescribeSecurityGroups groupLookup w = (inl out, w1) ->
  SecurityGroups out = g :: rest ->
  sg_GroupId g = Some gid ->
  getSecurityGroup w = (Done gid, w1, [EvDescribeSecurityGroups groupLookup])
  /\ occurrences isCreateGroup (snd (getSecurityGroup w)) = 0
  /\ forall (w0 : W) r0 t0,
       getSecurityGroup w0 = (r0, w, t0) ->
       occurrences isCreateGroup (t0 ++ snd (getSecurityGroup w)) <= 1.
Proof.
  intros Hl Hs Hg.
  pose proof (getSecurityGroup_found w w1 out g rest gid Hl Hs Hg) as Hrun.
  split; [exact Hrun | split].
  - rewrite Hrun. reflexivity.
  - intros w0 r0 t0 H0. rewrite Hrun. cbn [snd].
    rewrite occurrences_app.
    pose proof (getSecurityGroup_creates_at_most_once w0) as Hone.
    rewrite H0 in Hone. cbn [snd] in Hone.
    change (occurrences isCreateGroup [EvDescribeSecurityGroups groupLookup]) with 0.
    lia.
Qed.

(** When the lookup fails with the API error code ["InvalidGroup.NotFound"],
    [getSecurityGroup] calls create exactly once; when the creation
    succeeds the ingress rule is authorized exactly once, after it, for
    the group just created, and these three calls are the whole run. *)
Theorem getSecurityGroup_not_found_creates_once
    (w w1 w2 w3 : W) (e : error) (sg : CreateSecurityGroupOutput)
    (a : unit + error) (gid : string) :
  DescribeSecurityGroups groupLookup w = (inr e, w1) ->
  errCode e = Some "InvalidGroup.NotFound" ->
  CreateSecurityGroup groupCreation w1 = (inl sg, w2) ->
  GroupId sg = Some gid ->
  AuthorizeSecurityGroupIngress (webIngress (GroupId sg)) w2 = (a, w3) ->
  getSecurityGroup w
  = (Done gid, w3,
     [EvDescribeSecurityGroups groupLookup;
      EvCreateSecurityGroup groupCreation;
      EvAuthorizeSecurityGroupIngress (webIngress (Some gid))])
  /\ occurrences isCreateGroup (snd (getSecurityGroup w)) = 1
  /\ occurrences isAuthorize (snd (getSecurityGroup w)) = 1.
Proof.
  intros Hl He Hc Hg Ha.
  assert (Hrun : getSecurityGroup w
    = (Done gid, w3,
       [EvDescribeSecurityGroups groupLookup;
        EvCreateSecurityGroup groupCreation;
        EvAuthorizeSecurityGroupIngress (webIngress (Some gid))])).
  { rewrite (getSecurityGroup_not_found _ _ _ Hl He),
      (getSecurityGroup_create_ok _ _ _ _ _ _ Hc Ha Hg).
    reflexivity. }
  rewrite Hrun. repeat split.
Qed.

(** When the lookup fails with an API error of any other code,
    [getSecurityGroup] reports it, calls nothing else and returns the
    empty string. *)
Theorem getSecurityGroup_other_api_error_no_create
    (w w1 : W) (e : error) (code : string) :
  DescribeSecurityGroups groupLookup w = (inr e, w1) ->
  errCode e = Some code ->
  code <> "InvalidGroup.NotFound" ->
  getSecurityGroup w
  = (Done "", w1,
     [EvDescribeSecurityGroups groupLookup;
      EvPrintln (PStr "Got an error retrieving information about security griop:");
      EvPrintln (PStr "wordpress-sg");
      EvPrintln (PErr e)])
  /\ occurrences isCreateGroup (snd (getSecurityGroup w)) = 0.
Proof.
  intros Hl He Hn.
  pose proof (getSecurityGroup_other_code _ _ _ _ Hl He Hn) as Hrun.
  rewrite Hrun. split; reflexivity.
Qed.

(** When the rule set is not found and its creation fails,
    [getSecurityGroup] reports the error and returns the empty string,
    without calling authorize. *)
Theorem getSecurityGroup_creation_error_reported
    (w w1 w2 : W) (e e' : error) :
  DescribeSecurityGroups groupLookup w = (inr e, w1) ->
  errCode e = Some "InvalidGroup.NotFound" ->
  CreateSecurityGroup groupCreation w1 = (inr e', w2) ->
  getSecurityGroup w
  = (Done "", w2,
     [EvDescribeSecurityGroups groupLookup;
      EvCreateSecurityGroup groupCreation;
      EvPrintln (PStr "Got an error creating an security group:");
      EvPrintln (PErr e')])
  /\ occurrences isAuthorize (snd (getSecurityGroup w)) = 0.
Proof.
  intros Hl He Hc.
  assert (Hrun : getSecurityGroup w
    = (Done "", w2,
       [EvDescribeSecurityGroups groupLookup;
        EvCreateSecurityGroup groupCreation;
        EvPrintln (PStr "Got an error creating an security group:");
        EvPrintln (PErr e')])).
  { rewrite (getSecurityGroup_not_found _ _ _ Hl He),
      (getSecurityGroup_create_refused _ _ _ Hc).
    reflexivity. }
  rewrite Hrun. split; reflexivity.
Qed.

End Resolver.

(** C1, at the failing input.  In [worldLookupTimesOut] the lookup fails
    with an error that is not the "not found" condition (it carries no API
    error code at all), and [getSecurityGroup] nevertheless goes on to
    create the rule set and authorize its ingress rule, prints nothing, and
    returns the new identifier instead of the empty string. *)
Theorem getSecurityGroup_lookup_timeout_creates :
  fst (DescribeSecurityGroups groupLookup worldLookupTimesOut)
    = inr (transportError "dial tcp: i/o timeout")
  /\ errCode (transportError "dial tcp: i/o timeout") = None
  /\ fst (fst (getSecurityGroup worldLookupTimesOut)) = Done "sg-new"
  /\ snd (getSecurityGroup worldLookupTimesOut)
     = [EvDescribeSecurityGroups groupLookup;
        EvCreateSecurityGroup groupCreation;
        EvAuthorizeSecurityGroupIngress (webIngress (Some "sg-new"))]
  /\ occurrences isCreateGroup (snd (getSecurityGroup worldLookupTimesOut)) = 1.
Proof. repeat split. Qed.

(** C3, at the failing input.  In [worldAuthorizeFails] the rule set is
    not found, its creation succeeds and the authorization of the ingress
    rule fails; [getSecurityGroup] returns the identifier of the created
    group, not the empty string, and reports nothing. *)
Theorem getSecurityGroup_authorize_error_ignored :
  fst (AuthorizeSecurityGroupIngress (webIngress (Some "sg-new")) worldAuthorizeFails)
    = inr ingressRefused
  /\ fst (fst (getSecurityGroup worldAuthorizeFails)) = Done "sg-new"
  /\ snd (getSecurityGroup worldAuthorizeFails)
     = [EvDescribeSecurityGroups groupLookup;
        EvCreateSecurityGroup groupCreation;
        EvAuthorizeSecurityGroupIngress (webIngress (Some "sg-new"))]
  /\ occurrences isOutput (snd (getSecurityGroup worldAuthorizeFails)) = 0.
Proof. repeat split. Qed.

(** C5 at the state [worldGroupMissingOnce] is in after a first run, which
    created the rule set. *)
Lemma getSecurityGroup_idempotent_witness :
  let w := snd (fst (getSecurityGroup worldGroupMissingOnce)) in
  getSecurityGroup w
  = (Done "sg-new", snd (DescribeSecurityGroups groupLookup w),
     [EvDescribeSecurityGroups groupLookup])
  /\ occurrences isCreateGroup (snd (getSecurityGroup w)) = 0
  /\ forall (w0 : Scripted) r0 t0,
       getSecurityGroup w0 = (r0, w, t0) ->
       occurrences isCreateGroup (t0 ++ snd (getSecurityGroup w)) <= 1.
Proof.
  exact (getSecurityGroup_idempotent
           (snd (fst (getSecurityGroup worldGroupMissingOnce)))
           (snd (DescribeSecurityGroups groupLookup
                   (snd (fst (getSecurityGroup worldGroupMissingOnce)))))
           {| SecurityGroups := [ {| sg_GroupId := Some "sg-new" |} ] |}
           {| sg_GroupId := Some "sg-new" |} [] "sg-new"
           eq_refl eq_refl eq_refl).
Defined.

Lemma getSecurityGroup_not_found_creates_once_witness :
  getSecurityGroup worldGroupMissingOnce
  = (Done "sg-new", snd (fst (getSecurityGroup worldGroupMissingOnce)),
     [EvDescribeSecurityGroups groupLookup;
      EvCreateSecurityGroup groupCreation;
      EvAuthorizeSecurityGroupIngress (webIngress (Some "sg-new"))])
  /\ occurrences isCreateGroup (snd (getSecurityGroup worldGroupMissingOnce)) = 1
  /\ occurrences isAuthorize (snd (getSecurityGroup worldGroupMissingOnce)) = 1.
Proof.
  exact (getSecurityGroup_not_found_creates_once
           worldGroupMissingOnce
           (snd (DescribeSecurityGroups groupLookup worldGroupMissingOnce))
           (snd (CreateSecurityGroup groupCreation
                   (snd (DescribeSecurityGroups groupLookup worldGroupMissingOnce))))
           (snd (fst (getSecurityGroup worldGroupMissingOnce)))
           groupNotFound {| GroupId := Some "sg-new" |} (inl tt) "sg-new"
           eq_refl eq_refl eq_refl eq_refl eq_refl).
Defined.

Lemma getSecurityGroup_other_api_error_no_create_witness :
  getSecurityGroup worldLookupDenied
  = (Done "", snd (DescribeSecurityGroups groupLookup worldLookupDenied),
     [EvDescribeSecurityGroups groupLookup;
      EvPrintln (PStr "Got an error retrieving information about security griop:");
      EvPrintln (PStr "wordpress-sg");
      EvPrintln (PErr lookupDenied)])
  /\ occurrences isCreateGroup (snd (getSecurityGroup worldLookupDenied)) = 0.
Proof.
  apply (getSecurityGroup_other_api_error_no_create
           worldLookupDenied
           (snd (DescribeSecurityGroups groupLookup worldLookupDenied))
           lookupDenied "RequestLimitExceeded");
    [reflexivity | reflexivity | discriminate].
Defined.

Lemma getSecurityGroup_creation_error_reported_witness :
  getSecurityGroup worldCreateFails
  = (Done "", snd (fst (getSecurityGroup worldCreateFails)),
     [EvDescribeSecurityGroups groupLookup;
      EvCreateSecurityGroup groupCreation;
      EvPrintln (PStr "Got an error creating an security group:");
      EvPrintln (PErr groupLimit)])
  /\ occurrences isAuthorize (snd (getSecurityGroup worldCreateFails)) = 0.
Proof.
  exact (getSecurityGroup_creation_error_reported
           worldCreateFails
           (snd (DescribeSecurityGroups groupLookup worldCreateFails))
           (snd (fst (getSecurityGroup worldCreateFails)))
           groupNotFound groupLimit eq_refl eq_refl eq_refl).
Defined.

(** ** The launcher and the workflow *)

Section Launcher.
Context {W : Type} {env : Env W}.

(** C8.  When the create-instance request succeeds and the tag request
    that follows it fails, [createInstance] returns the identifier of the
    created instance all the same; the tagging error is printed, and that
    is all that comes of it. *)
Theorem createInstance_tag_failure_not_fatal
    (imageId : string) (w w1 w2 w3 : W) (t1 : list event)
    (securityGroupId : string) (result : RunInstancesOutput)
    (i : Instance) (rest : list Instance) (instanceId : string) (e : error) :
  getSecurityGroup w = (Done securityGroupId, w1, t1) ->
  RunInstances (launchInput imageId securityGroupId) w1 = (inl result, w2) ->
  Instances result = i :: rest ->
  InstanceId i = Some instanceId ->
  CreateTags (tagInput instanceId) w2 = (inr e, w3) ->
  createInstance imageId w
  = (Done instanceId, w3,
     t1 ++ [EvRunInstances (launchInput imageId securityGroupId);
            EvCreateTags (tagInput instanceId);
            EvPrintln (PStr "Got an error tagging the instance:");
            EvPrintln (PErr e)]).
Proof.
  intros Hg Hr Hi Hid Ht. unfold createInstance.
  rewrite (bind_Done _ _ _ _ _ _ Hg).
  fold (launchInput imageId securityGroupId).
  rewrite (bind_call _ _ _ _ _ _ Hr), Hi.
  unfold firstOf. rewrite bind_ret, Hid. unfold deref. rewrite bind_ret.
  unfold setTagName. fold (tagInput instanceId).
  rewrite bind_assoc, (bind_call _ _ _ _ _ _ Ht).
  unfold Println. rewrite bind_assoc, bind_emit, bind_emit.
  reflexivity.
Qed.

(** C4.  With an empty image identifier [main] prints that an AMI must be
    supplied and returns: the only other event of the run is the start-up
    time logged by the deferred [duration]; no remote call is made, and
    the world is left as it was. *)
Theorem main_without_image_calls_nothing (fuel : nat) (goos : string) (w : W) :
  main fuel goos "" w
  = (Done tt, w,
     [EvPrintln (PStr "You must supply an AMI");
      EvLogPrintf "Start-up time: %v\n"])
  /\ occurrences isRemoteCall (snd (main fuel goos "" w)) = 0.
Proof. split; reflexivity. Qed.

End Launcher.

(** C8 at [worldTagFails]. *)
Lemma createInstance_tag_failure_not_fatal_witness :
  createInstance "ami-123" worldTagFails
  = (Done "i-abc", snd (fst (createInstance "ami-123" worldTagFails)),
     [EvDescribeSecurityGroups groupLookup]
       ++ [EvRunInstances (launchInput "ami-123" "sg-123");
           EvCreateTags (tagInput "i-abc");
           EvPrintln (PStr "Got an error tagging the instance:");
           EvPrintln (PErr tagLimit)]).
Proof.
  exact (createInstance_tag_failure_not_fatal
           "ami-123" worldTagFails
           (snd (fst (getSecurityGroup worldTagFails)))
           (snd (RunInstances (launchInput "ami-123" "sg-123")
                   (snd (fst (getSecurityGroup worldTagFails)))))
           (snd (fst (createInstance "ami-123" worldTagFails)))
           [EvDescribeSecurityGroups groupLookup] "sg-123"
           {| Instances := [instanceWith 0 ""] |}
           (instanceWith 0 "") [] "i-abc" tagLimit
           eq_refl eq_refl eq_refl eq_refl eq_refl).
Defined.

(** The end-to-end scenario: the launch returns [i-abc], the poller
    returns the address with its scheme, and on Linux [main] hands that
    address to [xdg-open] as its last call. *)
Theorem main_end_to_end :
  fst (fst (createInstance "ami-123" worldEndToEnd)) = Done "i-abc"
  /\ fst (fst (waitRunning 2 "i-abc"
                 (snd (fst (createInstance "ami-123" worldEndToEnd)))))
     = Done "http://ec2-1-2-3-4.compute.amazonaws.com"
  /\ snd (main 2 "linux" "ami-123" worldEndToEnd)
     = [EvLoadDefaultConfig;
        EvDescribeSecurityGroups groupLookup;
        EvRunInstances (launchInput "ami-123" "sg-123");
        EvCreateTags (tagInput "i-abc");
        EvDescribeInstances (pollInput "i-abc");
        EvLogPrintf "Still pending...";
        EvSleep 3;
        EvDescribeInstances (pollInput "i-abc");
        EvSleep 7;
        EvStart "xdg-open" ["http://ec2-1-2-3-4.compute.amazonaws.com"];
        EvLogPrintf "Start-up time: %v\n"].
Proof. repeat split. Qed.

(** * Further properties of the code *)

(** ** How runs compose *)


Lemma emits_ret {W A} (P : event -> Prop) (a : A) : emits P (@ret W A a).
Proof. intros w. constructor. Qed.

Lemma emits_panic {W A} (P : event -> Prop) msg : emits P (@panic W A msg).
Proof. intros w. constructor. Qed.

Lemma emits_outOfFuel {W A} (P : event -> Prop) : emits P (@outOfFuel W A).
Proof. intros w. constructor. Qed.

Lemma emits_emit {W} (P : event -> Prop) (e : event) : P e -> emits P (@emit W e).
Proof. intros H w. repeat constructor. exact H. Qed.

Lemma emits_call {W R} (P : event -> Prop) (e : event) (op : W -> R * W) :
  P e -> emits P (call e op).
Proof.
  intros H w. unfold call. destruct (op w) as [r w1].
  repeat constructor. exact H.
Qed.

Lemma emits_deref {W A} (P : event -> Prop) (p : option A) : emits P (@deref W A p).
Proof. destruct p; [apply emits_ret | apply emits_panic]. Qed.

Lemma emits_firstOf {W A} (P : event -> Prop) (l : list A) : emits P (@firstOf W A l).
Proof. destruct l; [apply emits_panic | apply emits_ret]. Qed.

Lemma emits_bind {W A B} (P : event -> Prop) (m : prog W A) (k : A -> prog W B) :
  emits P m -> (forall a, emits P (k a)) -> emits P (bind m k).
Proof.
  intros Hm Hk w. specialize (Hm w). unfold bind.
  destruct (m w) as [[[a| | |] w1] t1]; cbn [snd] in *; try exact Hm.
  specialize (Hk a w1). destruct (k a w1) as [[r w2] t2]. cbn [snd] in *.
  apply Forall_app. split; assumption.
Qed.

Lemma emits_defer {W A} (P : event -> Prop) (f : prog W unit) (body : prog W A) :
  emits P f -> emits P body -> emits P (defer f body).
Proof.
  intros Hf Hb w. specialize (Hb w). unfold defer.
  destruct (body w) as [[[a| msg | |] w1] t1]; cbn [snd] in *; try exact Hb;
    specialize (Hf w1); destruct (f w1) as [[r w2] t2]; cbn [snd] in *;
    apply Forall_app; split; assumption.
Qed.

Lemma emits_weaken {W A} (P Q : event -> Prop) (m : prog W A) :
  (forall e, P e -> Q e) -> emits P m -> emits Q m.
Proof. intros H Hm w. eapply Forall_impl; [exact H | apply Hm]. Qed.

Lemma exitsFatally_ret {W A} (a : A) : exitsFatally (@ret W A a).
Proof. intros w c w' t H. discriminate H. Qed.

Lemma exitsFatally_panic {W A} msg : exitsFatally (@panic W A msg).
Proof. intros w c w' t H. discriminate H. Qed.

Lemma exitsFatally_outOfFuel {W A} : exitsFatally (@outOfFuel W A).
Proof. intros w c w' t H. discriminate H. Qed.

Lemma exitsFatally_emit {W} (e : event) : exitsFatally (@emit W e).
Proof. intros w c w' t H. discriminate H. Qed.

Lemma exitsFatally_call {W R} (e : event) (op : W -> R * W) :
  exitsFatally (call e op).
Proof.
  intros w c w' t H. unfold call in H. destruct (op w). discriminate H.
Qed.

Lemma exitsFatally_deref {W A} (p : option A) : exitsFatally (@deref W A p).
Proof. destruct p; [apply exitsFatally_ret | apply exitsFatally_panic]. Qed.

Lemma exitsFatally_firstOf {W A} (l : list A) : exitsFatally (@firstOf W A l).
Proof. destruct l; [apply exitsFatally_panic | apply exitsFatally_ret]. Qed.

Lemma exitsFatally_LogFatal {W A} (e : error) : exitsFatally (@LogFatal W A e).
Proof.
  intros w c w' t H. injection H as <- _ <-.
  split; [reflexivity|]. exists e, []. reflexivity.
Qed.

Lemma exitsFatally_bind {W A B} (m : prog W A) (k : A -> prog W B) :
  exitsFatally m -> (forall a, exitsFatally (k a)) -> exitsFatally (bind m k).
Proof.
  intros Hm Hk w c w' t H. unfold bind in H.
  destruct (m w) as [[[a| msg | c1 |] w1] t1] eqn:E; try discriminate H.
  - destruct (k a w1) as [[r w2] t2] eqn:E2. injection H as -> -> <-.
    destruct (Hk a _ _ _ _ E2) as (Hc & e & t0 & ->).
    split; [exact Hc|]. exists e, (t1 ++ t0). apply app_assoc.
  - injection H as -> -> ->. exact (Hm _ _ _ _ E).
Qed.

(** Goals about the shape of a run are split along the program text. *)
Ltac shape_step :=
  first
    [ apply emits_bind; [|intros ?]
    | apply exitsFatally_bind; [|intros ?]
    | apply emits_ret | apply emits_panic | apply emits_outOfFuel
    | apply emits_deref | apply emits_firstOf
    | apply exitsFatally_ret | apply exitsFatally_panic
    | apply exitsFatally_outOfFuel | apply exitsFatally_deref
    | apply exitsFatally_firstOf | apply exitsFatally_emit
    | apply exitsFatally_call | apply exitsFatally_LogFatal
    | apply emits_emit | apply emits_call
    | match goal with
      | |- emits _ (match ?x with _ => _ end) => destruct x
      | |- exitsFatally (match ?x with _ => _ end) => destruct x
      end ].

Ltac shape := repeat shape_step.

Lemma emits_occurrences {W A} (p : event -> bool) (m : prog W A) (w : W) :
  emits (fun e => p e = false) m -> occurrences p (snd (m w)) = 0.
Proof.
  intros H. specialize (H w). unfold occurrences.
  induction H as [|e t He _ IH]; [reflexivity|].
  cbn [filter]. rewrite He. exact IH.
Qed.

(** ** More on the readiness poller *)

Section PollerShape.
Context {W : Type} {env : Env W}.

Lemma scanInstances_emits (P : event -> Prop) (l : list Instance) :
  P (EvSleep 7) -> P (EvLogPrintf "Still pending...") ->
  P (EvPrintln (PStr "Got an error creating an instance")) ->
  emits P (@scanInstances W l).
Proof.
  intros H7 Hlog Hprint. induction l as [|i l IH]; [apply emits_ret|].
  rewrite scanInstances_cons. unfold Sleep, LogPrintf, Println.
  shape; assumption.
Qed.

Lemma scanReservations_emits (P : event -> Prop) (rs : list Reservation) :
  P (EvSleep 7) -> P (EvLogPrintf "Still pending...") ->
  P (EvPrintln (PStr "Got an error creating an instance")) ->
  emits P (@scanReservations W rs).
Proof.
  intros H7 Hlog Hprint w. rewrite scanReservations_flat.
  apply scanInstances_emits; assumption.
Qed.

Lemma waitRunning_emits (instanceId : string) (fuel : nat) :
  emits (pollerEvent instanceId) (@waitRunning W env fuel instanceId).
Proof.
  induction fuel as [|fuel IH]; [apply emits_outOfFuel|].
  rewrite waitRunning_S. unfold Sleep, Println.
  apply emits_bind; [apply emits_call; left; reflexivity | intros [out|e]].
  - apply emits_bind.
    + apply scanReservations_emits; unfold pollerEvent; eauto 6.
    + intros [s|]; [apply emits_ret|].
      apply emits_bind; [apply emits_emit; unfold pollerEvent; auto | intros _].
      exact IH.
  - shape; unfold pollerEvent; eauto 6.
Qed.

Lemma waitRunning_queries_le (instanceId : string) (fuel : nat) : forall (w : W),
  occurrences isQuery (snd (waitRunning fuel instanceId w)) <= fuel.
Proof.
  induction fuel as [|fuel IH]; intros w; [apply Nat.le_refl|].
  destruct (DescribeInstances (pollInput instanceId) w) as [[out|e] w1] eqn:Hq.
  - rewrite waitRunning_S, (bind_call _ _ _ _ _ _ Hq).
    pose proof (emits_occurrences isQuery (scanReservations (Reservations out)) w1
                  (scanReservations_emits _ _ eq_refl eq_refl eq_refl)) as Hscan.
    unfold bind.
    destruct (scanReservations (Reservations out) w1) as [[[[s|]| | |] w2] t2];
      cbn [snd] in Hscan; cbn [after snd ret];
      rewrite ?occurrences_cons, ?occurrences_app, ?Hscan; cbn [isQuery];
      try (cbv; lia).
    cbn [Sleep emit]. specialize (IH w2).
    destruct (waitRunning fuel instanceId w2) as [[r3 w3] t3].
    cbn [after snd app] in *.
    rewrite occurrences_cons, occurrences_app, Hscan, occurrences_cons.
    cbn [isQuery]. lia.
  - rewrite (waitRunning_step_error _ _ _ _ _ Hq). cbv. lia.
Qed.

End PollerShape.

Section PollerMore.
Context {W : Type} {env : Env W}.

(** However many pending answers come first, a running instance ends the
    wait: with [n] pending answers before it, [waitRunning] makes [n + 1]
    queries, sleeps three seconds [n] times and then seven seconds, and
    returns ["http://"] and the public address, a string that is never
    empty, whatever the address. *)
Theorem waitRunning_running_after_pending
    (instanceId : string) (w : W) (fuel n : nat)
    (out : DescribeInstancesOutput) (pend rest : list Instance)
    (i : Instance) (dns : string) :
  (forall k, k < n ->
     pendingResponse (pollResponse (pollInput instanceId) k w) = true) ->
  pollResponse (pollInput instanceId) n w = inl out ->
  instancesOf out = pend ++ i :: rest ->
  forallb isPending pend = true ->
  stateCode i = Some 16%Z ->
  PublicDnsName i = Some dns ->
  n < fuel ->
  exists t,
    waitRunning fuel instanceId w
    = (Done ("http://" ++ dns)%string,
       pollState (pollInput instanceId) (S n) w, t)
    /\ ("http://" ++ dns)%string <> ""
    /\ occurrences isQuery t = S n
    /\ sleeps t = repeat 3%Z n ++ [7%Z].
Proof.
  intros Hpre Hn Hl Hp Hc Hd Hfuel.
  destruct (waitRunning_pending_prefix instanceId n w Hpre) as (t0 & Hs & Hq & Hrun).
  replace fuel with (n + S (fuel - S n)) by lia. rewrite Hrun.
  pose proof (poll_split (pollInput instanceId) n w) as Hsplit.
  rewrite Hn in Hsplit.
  rewrite (waitRunning_step_running _ _ _ _ _ _ _ _ _ Hsplit Hl Hp Hc Hd).
  eexists. split; [reflexivity|]. split; [discriminate|]. split.
  - rewrite occurrences_app, occurrences_cons, occurrences_app,
      occurrences_stillPending, Hq by reflexivity.
    cbn [isQuery occurrences filter length]. lia.
  - rewrite sleeps_app, Hs. cbn [sleeps].
    rewrite sleeps_app, sleeps_stillPending. reflexivity.
Qed.


(** Whatever the answers, the poller talks to the service only through
    status queries for the instance it was given, one per round at most;
    all else it does is sleep three or seven seconds, log the pending
    notice and print.  It starts no process. *)
Theorem waitRunning_only_polls (instanceId : string) (fuel : nat) (w : W) :
  Forall (pollerEvent instanceId) (snd (waitRunning fuel instanceId w))
  /\ (forall e, In e (snd (waitRunning fuel instanceId w)) ->
        isRemoteCall e = true ->
        e = EvDescribeInstances (pollInput instanceId))
  /\ occurrences isQuery (snd (waitRunning fuel instanceId w)) <= fuel
  /\ occurrences isStart (snd (waitRunning fuel instanceId w)) = 0.
Proof.
  pose proof (waitRunning_emits instanceId fuel w) as Hall.
  split; [exact Hall | split; [|split]].
  - intros e Hin Hcall. rewrite Forall_forall in Hall.
    destruct (Hall e Hin) as [He | [He | [He | [He | (v & He)]]]];
      subst e; [reflexivity | discriminate ..].
  - apply waitRunning_queries_le.
  - apply emits_occurrences.
    eapply emits_weaken; [|apply waitRunning_emits].
    intros e [He | [He | [He | [He | (v & He)]]]]; subst e; reflexivity.
Qed.

(** The time a returning run has slept: three seconds after each answer
    but the last, and seven more exactly when it returns an address.  The
    queries are one more than the sleeps of three seconds. *)
Theorem waitRunning_sleep_account
    (instanceId : string) (fuel : nat) (w w' : W) (s : string) (t : list event) :
  waitRunning fuel instanceId w = (Done s, w', t) ->
  exists n,
    n < fuel /\
    occurrences isQuery t = S n /\
    ((s = "" /\ sleeps t = repeat 3%Z n)
     \/ (s <> "" /\ sleeps t = repeat 3%Z n ++ [7%Z])).
Proof.
  intros H. pose proof H as Hinv. apply waitRunning_Done in Hinv.
  destruct Hinv as (n & Hn & Hpre & _ & Hend). exists n. split; [exact Hn|].
  destruct (waitRunning_pending_prefix instanceId n w Hpre) as (t0 & Hs & Hq & Hrun).
  replace fuel with (n + S (fuel - S n)) in H by lia. rewrite Hrun in H.
  pose proof (poll_split (pollInput instanceId) n w) as Hsplit.
  destruct Hend as [(e & He & _) | (out & i & Hr & (pend & rest & Hl & Hp) & Hv)].
  - rewrite He in Hsplit. rewrite (waitRunning_step_error _ _ _ _ _ Hsplit) in H.
    cbn [after] in H. injection H as <- _ <-. split.
    + rewrite occurrences_app, Hq. cbn [isQuery occurrences filter length]. lia.
    + left. split; [reflexivity|]. rewrite sleeps_app, Hs. apply app_nil_r.
  - rewrite Hr in Hsplit.
    destruct Hv as [(Hc & dns & Hd & _) | (c & Hc & H0 & H16 & _)].
    + rewrite (waitRunning_step_running _ _ _ _ _ _ _ _ _ Hsplit Hl Hp Hc Hd) in H.
      cbn [after] in H. injection H as <- _ <-. split.
      * rewrite occurrences_app, occurrences_cons, occurrences_app,
          occurrences_stillPending, Hq by reflexivity.
        cbn [isQuery occurrences filter length]. lia.
      * right. split; [discriminate|].
        rewrite sleeps_app, Hs. cbn [sleeps].
        rewrite sleeps_app, sleeps_stillPending. reflexivity.
    + rewrite (waitRunning_step_failed _ _ _ _ _ _ _ _ _ Hsplit Hl Hp Hc H0 H16) in H.
      cbn [after] in H. injection H as <- _ <-. split.
      * rewrite occurrences_app, occurrences_cons, occurrences_app,
          occurrences_stillPending, Hq by reflexivity.
        cbn [isQuery occurrences filter length]. lia.
      * left. split; [reflexivity|].
        rewrite sleeps_app, Hs. cbn [sleeps].
        rewrite sleeps_app, sleeps_stillPending. apply app_nil_r.
Qed.

End PollerMore.

Lemma waitRunning_running_after_pending_witness :
  exists t,
    waitRunning 3 "i-abc" worldBootsUp
    = (Done "http://ec2-1-2-3-4.compute.amazonaws.com",
       pollState (pollInput "i-abc") 3 worldBootsUp, t)
    /\ "http://ec2-1-2-3-4.compute.amazonaws.com" <> ""
    /\ occurrences isQuery t = 3
    /\ sleeps t = repeat 3%Z 2 ++ [7%Z].
Proof.
  apply (waitRunning_running_after_pending "i-abc" worldBootsUp 3 2
           {| Reservations :=
                [ {| r_Instances :=
                       [instanceWith 16 "ec2-1-2-3-4.compute.amazonaws.com"] |} ] |}
           [] [] (instanceWith 16 "ec2-1-2-3-4.compute.amazonaws.com")
           "ec2-1-2-3-4.compute.amazonaws.com");
    try reflexivity; try lia.
  intros k Hk. destruct k as [|[|k]]; [reflexivity | reflexivity | lia].
Defined.


Lemma waitRunning_sleep_account_witness :
  exists n,
    n < 5 /\
    occurrences isQuery (snd (waitRunning 5 "i-abc" worldBootsUp)) = S n /\
    (("http://ec2-1-2-3-4.compute.amazonaws.com" = "" /\
      sleeps (snd (waitRunning 5 "i-abc" worldBootsUp)) = repeat 3%Z n)
     \/ ("http://ec2-1-2-3-4.compute.amazonaws.com" <> "" /\
         sleeps (snd (waitRunning 5 "i-abc" worldBootsUp)) = repeat 3%Z n ++ [7%Z])).
Proof.
  apply (waitRunning_sleep_account "i-abc" 5 worldBootsUp
           (snd (fst (waitRunning 5 "i-abc" worldBootsUp)))).
  reflexivity.
Defined.

(** ** More on the resolver and the launcher *)

Section ResolverShape.
Context {W : Type} {env : Env W}.

Lemma getSecurityGroup_emits (P : event -> Prop) :
  (forall i, P (EvDescribeSecurityGroups i)) ->
  (forall i, P (EvCreateSecurityGroup i)) ->
  (forall i, P (EvAuthorizeSecurityGroupIngress i)) ->
  (forall v, P (EvPrintln v)) ->
  emits P (@getSecurityGroup W env).
Proof.
  intros Hl Hc Ha Hp.
  unfold getSecurityGroup, getSecurityGroup_create, Println.
  shape; auto.
Qed.

Lemma setTagName_emits (P : event -> Prop) (instanceId : string) :
  (forall i, P (EvCreateTags i)) -> (forall v, P (EvPrintln v)) ->
  emits P (@setTagName W env instanceId).
Proof. intros Ht Hp. unfold setTagName, Println. shape; auto. Qed.

Lemma createInstance_emits (P : event -> Prop) (imageId : string) :
  (forall i, P (EvDescribeSecurityGroups i)) ->
  (forall i, P (EvCreateSecurityGroup i)) ->
  (forall i, P (EvAuthorizeSecurityGroupIngress i)) ->
  (forall i, P (EvRunInstances i)) ->
  (forall i, P (EvCreateTags i)) ->
  (forall v, P (EvPrintln v)) ->
  emits P (@createInstance W env imageId).
Proof.
  intros Hl Hc Ha Hr Ht Hp. unfold createInstance.
  apply emits_bind; [apply getSecurityGroup_emits; assumption | intros sg].
  unfold Println.
  apply emits_bind; [apply emits_call; apply Hr | intros [out|e]].
  - apply emits_bind; [apply emits_firstOf | intros i].
    apply emits_bind; [apply emits_deref | intros id].
    apply emits_bind; [apply setTagName_emits; assumption | intros _].
    apply emits_ret.
  - shape; auto.
Qed.

(** The creation of the rule set ends in one of two ways. *)
Lemma getSecurityGroup_create_cases (w : W) :
  (exists e w1,
     getSecurityGroup_create "wordpress-sg" w
     = (Done "", w1,
        [EvCreateSecurityGroup groupCreation;
         EvPrintln (PStr "Got an error creating an security group:");
         EvPrintln (PErr e)]))
  \/ (exists g,
        snd (getSecurityGroup_create "wordpress-sg" w)
        = [EvCreateSecurityGroup groupCreation;
           EvAuthorizeSecurityGroupIngress (webIngress g)]).
Proof.
  destruct (CreateSecurityGroup groupCreation w) as [[sg|e] w1] eqn:Hc.
  - right. exists (GroupId sg).
    rewrite getSecurityGroup_create_eq by reflexivity.
    rewrite (bind_call _ _ _ _ _ _ Hc).
    destruct (AuthorizeSecurityGroupIngress (webIngress (GroupId sg)) w1)
      as [a w2] eqn:Ha.
    rewrite (bind_call _ _ _ _ _ _ Ha). destruct (GroupId sg); reflexivity.
  - left. exists e, w1. apply getSecurityGroup_create_refused. exact Hc.
Qed.

(** And so does the resolver: the lookup alone, the lookup and its report,
    or the lookup and the creation. *)
Lemma getSecurityGroup_cases (w : W) :
  snd (getSecurityGroup w) = [EvDescribeSecurityGroups groupLookup]
  \/ (exists e w1,
        getSecurityGroup w
        = (Done "", w1,
           [EvDescribeSecurityGroups groupLookup;
            EvPrintln (PStr "Got an error retrieving information about security griop:");
            EvPrintln (PStr "wordpress-sg");
            EvPrintln (PErr e)]))
  \/ (exists w1,
        getSecurityGroup w
        = after [EvDescribeSecurityGroups groupLookup]
                (getSecurityGroup_create "wordpress-sg" w1)).
Proof.
  destruct (DescribeSecurityGroups groupLookup w) as [[out|e] w1] eqn:Hl.
  - destruct (SecurityGroups out) as [|g rest] eqn:Hs.
    + right. right. exists w1. apply (getSecurityGroup_none_listed _ _ _ Hl Hs).
    + left. rewrite getSecurityGroup_eq, (bind_call _ _ _ _ _ _ Hl), Hs.
      cbn [length Nat.ltb Nat.leb firstOf]. rewrite bind_ret.
      destruct (sg_GroupId g); reflexivity.
  - destruct (errCode e) as [code|] eqn:He.
    + destruct (String.eqb_spec code "InvalidGroup.NotFound") as [->|Hn].
      * right. right. exists w1. apply (getSecurityGroup_not_found _ _ _ Hl He).
      * right. left. exists e, w1.
        apply (getSecurityGroup_other_code _ _ _ _ Hl He Hn).
    + right. right. exists w1. apply (getSecurityGroup_no_code _ _ _ Hl He).
Qed.

(** When the lookup succeeds and lists no group at all, the rule set is
    created as if it had not been found: with a successful creation the
    run is lookup, create, authorize, and the new identifier is returned. *)
Theorem getSecurityGroup_empty_listing_creates
    (w w1 w2 w3 : W) (out : DescribeSecurityGroupsOutput)
    (sg : CreateSecurityGroupOutput) (a : unit + error) (gid : string) :
  DescribeSecurityGroups groupLookup w = (inl out, w1) ->
  SecurityGroups out = [] ->
  CreateSecurityGroup groupCreation w1 = (inl sg, w2) ->
  GroupId sg = Some gid ->
  AuthorizeSecurityGroupIngress (webIngress (GroupId sg)) w2 = (a, w3) ->
  getSecurityGroup w
  = (Done gid, w3,
     [EvDescribeSecurityGroups groupLookup;
      EvCreateSecurityGroup groupCreation;
      EvAuthorizeSecurityGroupIngress (webIngress (Some gid))]).
Proof.
  intros Hl Hs Hc Hg Ha.
  rewrite (getSecurityGroup_none_listed _ _ _ Hl Hs),
    (getSecurityGroup_create_ok _ _ _ _ _ _ Hc Ha Hg).
  reflexivity.
Qed.

(** Whenever the resolver prints anything it returns the empty string, and
    it has not authorized any ingress rule. *)
Theorem getSecurityGroup_report_means_sentinel
    (w w' : W) (r : outcome string) (t : list event) :
  getSecurityGroup w = (r, w', t) ->
  occurrences isOutput t <> 0 ->
  r = Done "" /\ occurrences isAuthorize t = 0.
Proof.
  intros H Hout.
  destruct (getSecurityGroup_cases w) as [Hc | [(e & w1 & Hc) | (w1 & Hc)]].
  - rewrite H in Hc. cbn [snd] in Hc. subst t. destruct (Hout eq_refl).
  - rewrite H in Hc. injection Hc as -> _ ->. split; reflexivity.
  - rewrite H in Hc.
    destruct (getSecurityGroup_create_cases w1) as [(e & w2 & Hk) | (g & Hk)].
    + rewrite Hk in Hc. cbn [after] in Hc. injection Hc as -> _ ->.
      split; reflexivity.
    + destruct (getSecurityGroup_create "wordpress-sg" w1) as [[r1 w2] t1].
      cbn [snd after] in *. injection Hc as _ _ ->. subst t1.
      destruct (Hout eq_refl).
Qed.

(** Every run of the resolver begins with the lookup of ["wordpress-sg"]
    and makes at most three remote calls; none of them launches, tags or
    queries an instance. *)
Theorem getSecurityGroup_calls_bounded (w : W) :
  (exists t', snd (getSecurityGroup w) = EvDescribeSecurityGroups groupLookup :: t')
  /\ occurrences isRemoteCall (snd (getSecurityGroup w)) <= 3
  /\ occurrences isLaunch (snd (getSecurityGroup w)) = 0
  /\ occurrences isTagging (snd (getSecurityGroup w)) = 0
  /\ occurrences isQuery (snd (getSecurityGroup w)) = 0.
Proof.
  split; [|split].
  - destruct (getSecurityGroup_cases w) as [Hc | [(e & w1 & Hc) | (w1 & Hc)]].
    + rewrite Hc. eexists. reflexivity.
    + rewrite Hc. eexists. reflexivity.
    + rewrite Hc. destruct (getSecurityGroup_create "wordpress-sg" w1) as [[r1 w2] t1].
      eexists. reflexivity.
  - destruct (getSecurityGroup_cases w) as [Hc | [(e & w1 & Hc) | (w1 & Hc)]].
    + rewrite Hc. cbv. lia.
    + rewrite Hc. cbv. lia.
    + rewrite Hc.
      destruct (getSecurityGroup_create_cases w1) as [(e & w2 & Hk) | (g & Hk)].
      * rewrite Hk. cbv. lia.
      * destruct (getSecurityGroup_create "wordpress-sg" w1) as [[r1 w2] t1].
        cbn [snd after] in *. subst t1. cbv. lia.
  - repeat split; apply emits_occurrences; apply getSecurityGroup_emits;
      intros; reflexivity.
Qed.

End ResolverShape.

Lemma getSecurityGroup_empty_listing_creates_witness :
  getSecurityGroup worldNoGroupListed
  = (Done "sg-new", snd (fst (getSecurityGroup worldNoGroupListed)),
     [EvDescribeSecurityGroups groupLookup;
      EvCreateSecurityGroup groupCreation;
      EvAuthorizeSecurityGroupIngress (webIngress (Some "sg-new"))]).
Proof.
  exact (getSecurityGroup_empty_listing_creates
           worldNoGroupListed
           (snd (DescribeSecurityGroups groupLookup worldNoGroupListed))
           (snd (CreateSecurityGroup groupCreation
                   (snd (DescribeSecurityGroups groupLookup worldNoGroupListed))))
           (snd (fst (getSecurityGroup worldNoGroupListed)))
           {| SecurityGroups := [] |} {| GroupId := Some "sg-new" |}
           (inl tt) "sg-new"
           eq_refl eq_refl eq_refl eq_refl eq_refl).
Defined.

Lemma getSecurityGroup_report_means_sentinel_witness :
  Done "" = Done ""
  /\ occurrences isAuthorize (snd (getSecurityGroup worldCreateFails)) = 0.
Proof.
  apply (getSecurityGroup_report_means_sentinel
           worldCreateFails
           (snd (fst (getSecurityGroup worldCreateFails)))
           (Done "") (snd (getSecurityGroup worldCreateFails)));
    [reflexivity | discriminate].
Defined.

Section LauncherMore.
Context {W : Type} {env : Env W}.

(** What follows the resolver in [createInstance]. *)
Lemma createInstance_after_group (imageId : string) (w w1 : W) t1 sg :
  getSecurityGroup w = (Done sg, w1, t1) ->
  createInstance imageId w
  = after t1
      ((r <- call (EvRunInstances (launchInput imageId sg))
                  (RunInstances (launchInput imageId sg)) ;;
        match r with
        | inr err =>
            Println (PStr "Got an error creating an instance:") ;;;
            Println (PErr err) ;;;
            ret ""
        | inl result =>
            i <- firstOf (Instances result) ;;
            instanceId <- deref (InstanceId i) ;;
            setTagName instanceId ;;;
            ret instanceId
        end) w1).
Proof.
  intros Hg. unfold createInstance. rewrite (bind_Done _ _ _ _ _ _ Hg).
  reflexivity.
Qed.

Lemma getSecurityGroup_no_launch_no_tag (w : W) :
  occurrences isLaunch (snd (getSecurityGroup w)) = 0
  /\ occurrences isTagging (snd (getSecurityGroup w)) = 0.
Proof.
  split; apply emits_occurrences; apply getSecurityGroup_emits;
    intros; reflexivity.
Qed.

(** Whatever identifier the resolver returns, the empty sentinel included,
    [createInstance] goes on to request one [t2.micro] instance of the
    image in that group: the request follows the resolver's calls at once
    and is the only launch request of the run. *)
Theorem createInstance_launches_once
    (imageId : string) (w w1 : W) (t1 : list event) (securityGroupId : string) :
  getSecurityGroup w = (Done securityGroupId, w1, t1) ->
  (exists t2,
     snd (createInstance imageId w)
     = t1 ++ EvRunInstances (launchInput imageId securityGroupId) :: t2)
  /\ occurrences isLaunch (snd (createInstance imageId w)) = 1.
Proof.
  intros Hg. rewrite (createInstance_after_group imageId _ _ _ _ Hg).
  pose proof (getSecurityGroup_no_launch_no_tag w) as [Hno _].
  rewrite Hg in Hno. cbn [snd] in Hno.
  destruct (RunInstances (launchInput imageId securityGroupId) w1)
    as [r w2] eqn:Hr.
  rewrite (bind_call _ _ _ _ _ _ Hr).
  assert (Hrest :
    occurrences isLaunch
      (snd (match r with
            | inr err =>
                Println (PStr "Got an error creating an instance:") ;;;
                Println (PErr err) ;;;
                ret ""
            | inl result =>
                i <- firstOf (Instances result) ;;
                instanceId <- deref (InstanceId i) ;;
                setTagName instanceId ;;;
                ret instanceId
            end w2)) = 0).
  { apply emits_occurrences. unfold Println, setTagName. shape; reflexivity. }
  match type of Hrest with
  | occurrences _ (snd ?x) = 0 => destruct x as [[r3 w3] t3]
  end.
  cbn [after snd app] in *. split.
  - exists t3. reflexivity.
  - rewrite occurrences_app, occurrences_cons, Hno, Hrest. reflexivity.
Qed.

(** When the launch request fails, [createInstance] prints the error and
    returns the empty string; nothing is tagged. *)
Theorem createInstance_launch_error
    (imageId : string) (w w1 w2 : W) (t1 : list event)
    (securityGroupId : string) (e : error) :
  getSecurityGroup w = (Done securityGroupId, w1, t1) ->
  RunInstances (launchInput imageId securityGroupId) w1 = (inr e, w2) ->
  createInstance imageId w
  = (Done "", w2,
     t1 ++ [EvRunInstances (launchInput imageId securityGroupId);
            EvPrintln (PStr "Got an error creating an instance:");
            EvPrintln (PErr e)])
  /\ occurrences isTagging (snd (createInstance imageId w)) = 0.
Proof.
  intros Hg Hr.
  assert (Hrun : createInstance imageId w
    = (Done "", w2,
       t1 ++ [EvRunInstances (launchInput imageId securityGroupId);
              EvPrintln (PStr "Got an error creating an instance:");
              EvPrintln (PErr e)])).
  { rewrite (createInstance_after_group imageId _ _ _ _ Hg),
      (bind_call _ _ _ _ _ _ Hr).
    unfold Println. rewrite !bind_emit. reflexivity. }
  split; [exact Hrun|]. rewrite Hrun. cbn [snd].
  pose proof (getSecurityGroup_no_launch_no_tag w) as [_ Hno].
  rewrite Hg in Hno. cbn [snd] in Hno.
  rewrite occurrences_app, Hno. reflexivity.
Qed.

(** When the launch succeeds, the identifier of the first instance of the
    answer is returned whatever the tag request answers, and that instance
    is tagged [Name = WordPress] by the one tag request of the run, made
    after the launch. *)
Theorem createInstance_returns_launched
    (imageId : string) (w w1 w2 w3 : W) (t1 : list event)
    (securityGroupId : string) (result : RunInstancesOutput)
    (i : Instance) (rest : list Instance) (instanceId : string)
    (a : unit + error) :
  getSecurityGroup w = (Done securityGroupId, w1, t1) ->
  RunInstances (launchInput imageId securityGroupId) w1 = (inl result, w2) ->
  Instances result = i :: rest ->
  InstanceId i = Some instanceId ->
  CreateTags (tagInput instanceId) w2 = (a, w3) ->
  exists t3,
    createInstance imageId w
    = (Done instanceId, w3,
       t1 ++ EvRunInstances (launchInput imageId securityGroupId)
          :: EvCreateTags (tagInput instanceId) :: t3)
    /\ occurrences isTagging (snd (createInstance imageId w)) = 1
    /\ (t3 = [] <-> exists u, a = inl u).
Proof.
  intros Hg Hr Hi Hid Ht.
  pose proof (getSecurityGroup_no_launch_no_tag w) as [_ Hno].
  rewrite Hg in Hno. cbn [snd] in Hno.
  rewrite (createInstance_after_group imageId _ _ _ _ Hg),
    (bind_call _ _ _ _ _ _ Hr), Hi.
  unfold firstOf. rewrite bind_ret, Hid. unfold deref. rewrite bind_ret.
  unfold setTagName. fold (tagInput instanceId).
  rewrite bind_assoc, (bind_call _ _ _ _ _ _ Ht).
  destruct a as [u|e].
  - exists []. rewrite bind_ret. cbn [after snd app ret]. split; [reflexivity|].
    split.
    + rewrite occurrences_app, Hno. reflexivity.
    + split; [intros _; exists u; reflexivity | reflexivity].
  - exists [EvPrintln (PStr "Got an error tagging the instance:"); EvPrintln (PErr e)].
    unfold Println. rewrite bind_assoc, bind_emit, bind_emit.
    cbn [after snd app ret]. split; [reflexivity|]. split.
    + rewrite occurrences_app, Hno. reflexivity.
    + split; [discriminate | intros (u & Hu); discriminate Hu].
Qed.

(** When the launch succeeds and its answer lists no instance,
    [createInstance] panics on [result.Instances[0]], right after the
    launch request; nothing is tagged and nothing is printed. *)
Theorem createInstance_no_instance_panics
    (imageId : string) (w w1 w2 : W) (t1 : list event)
    (securityGroupId : string) (result : RunInstancesOutput) :
  getSecurityGroup w = (Done securityGroupId, w1, t1) ->
  RunInstances (launchInput imageId securityGroupId) w1 = (inl result, w2) ->
  Instances result = [] ->
  createInstance imageId w
  = (Panicked "index out of range [0] with length 0", w2,
     t1 ++ [EvRunInstances (launchInput imageId securityGroupId)]).
Proof.
  intros Hg Hr Hi.
  rewrite (createInstance_after_group imageId _ _ _ _ Hg),
    (bind_call _ _ _ _ _ _ Hr), Hi.
  reflexivity.
Qed.

End LauncherMore.

Lemma createInstance_launches_once_witness :
  (exists t2,
     snd (createInstance "ami-123" worldLookupDenied)
     = [EvDescribeSecurityGroups groupLookup;
        EvPrintln (PStr "Got an error retrieving information about security griop:");
        EvPrintln (PStr "wordpress-sg");
        EvPrintln (PErr lookupDenied)]
       ++ EvRunInstances (launchInput "ami-123" "") :: t2)
  /\ occurrences isLaunch (snd (createInstance "ami-123" worldLookupDenied)) = 1.
Proof.
  exact (createInstance_launches_once
           "ami-123" worldLookupDenied
           (snd (fst (getSecurityGroup worldLookupDenied)))
           [EvDescribeSecurityGroups groupLookup;
            EvPrintln (PStr "Got an error retrieving information about security griop:");
            EvPrintln (PStr "wordpress-sg");
            EvPrintln (PErr lookupDenied)]
           "" eq_refl).
Defined.

Lemma createInstance_launch_error_witness :
  createInstance "ami-123" worldLaunchFails
  = (Done "", snd (fst (createInstance "ami-123" worldLaunchFails)),
     [EvDescribeSecurityGroups groupLookup]
       ++ [EvRunInstances (launchInput "ami-123" "sg-123");
           EvPrintln (PStr "Got an error creating an instance:");
           EvPrintln (PErr imageNotFound)])
  /\ occurrences isTagging (snd (createInstance "ami-123" worldLaunchFails)) = 0.
Proof.
  exact (createInstance_launch_error
           "ami-123" worldLaunchFails
           (snd (fst (getSecurityGroup worldLaunchFails)))
           (snd (fst (createInstance "ami-123" worldLaunchFails)))
           [EvDescribeSecurityGroups groupLookup] "sg-123" imageNotFound
           eq_refl eq_refl).
Defined.

Lemma createInstance_returns_launched_witness :
  exists t3,
    createInstance "ami-123" worldEndToEnd
    = (Done "i-abc", snd (fst (createInstance "ami-123" worldEndToEnd)),
       [EvDescribeSecurityGroups groupLookup]
         ++ EvRunInstances (launchInput "ami-123" "sg-123")
         :: EvCreateTags (tagInput "i-abc") :: t3)
    /\ occurrences isTagging (snd (createInstance "ami-123" worldEndToEnd)) = 1
    /\ (t3 = [] <-> exists u, @inl unit error tt = inl u).
Proof.
  exact (createInstance_returns_launched
           "ami-123" worldEndToEnd
           (snd (fst (getSecurityGroup worldEndToEnd)))
           (snd (RunInstances (launchInput "ami-123" "sg-123")
                   (snd (fst (getSecurityGroup worldEndToEnd)))))
           (snd (fst (createInstance "ami-123" worldEndToEnd)))
           [EvDescribeSecurityGroups groupLookup] "sg-123"
           {| Instances := [instanceWith 0 ""] |}
           (instanceWith 0 "") [] "i-abc" (inl tt)
           eq_refl eq_refl eq_refl eq_refl eq_refl).
Defined.

Lemma createInstance_no_instance_panics_witness :
  createInstance "ami-123" worldLaunchEmpty
  = (Panicked "index out of range [0] with length 0",
     snd (fst (createInstance "ami-123" worldLaunchEmpty)),
     [EvDescribeSecurityGroups groupLookup]
       ++ [EvRunInstances (launchInput "ami-123" "sg-123")]).
Proof.
  exact (createInstance_no_instance_panics
           "ami-123" worldLaunchEmpty
           (snd (fst (getSecurityGroup worldLaunchEmpty)))
           (snd (fst (createInstance "ami-123" worldLaunchEmpty)))
           [EvDescribeSecurityGroups groupLookup] "sg-123"
           {| Instances := [] |} eq_refl eq_refl eq_refl).
Defined.

(** ** The browser launcher *)


Lemma bind_Panicked {W A B} (m : prog W A) (k : A -> prog W B) w msg w1 t1 :
  m w = (Panicked msg, w1, t1) -> bind m k w = (Panicked msg, w1, t1).
Proof. intros H. unfold bind. rewrite H. reflexivity. Qed.

Lemma bind_Exited {W A B} (m : prog W A) (k : A -> prog W B) w c w1 t1 :
  m w = (Exited c, w1, t1) -> bind m k w = (Exited c, w1, t1).
Proof. intros H. unfold bind. rewrite H. reflexivity. Qed.

Section Browser.
Context {W : Type} {env : Env W}.

(** What [openBrowser] does once the command is chosen. *)
Lemma openBrowser_started (k : option error -> prog W unit)
    (name : string) (args : list string) (w : W) :
  k = (fun err => match err with
                  | Some e =>
                      Println (PStr "Got an error open browser:") ;;;
                      Println (PErr e) ;;;
                      LogFatal e
                  | None => ret tt
                  end) ->
  (exists w1, bind (call (EvStart name args) (Start name args)) k w
              = (Done tt, w1, [EvStart name args]))
  \/ (exists e w1, bind (call (EvStart name args) (Start name args)) k w
                   = (Exited 1, w1,
                      [EvStart name args;
                       EvPrintln (PStr "Got an error open browser:");
                       EvPrintln (PErr e);
                       EvLogFatal e])).
Proof.
  intros ->. destruct (Start name args w) as [[e|] w1] eqn:Hs;
    rewrite (bind_call _ _ _ _ _ _ Hs).
  - right. exists e, w1. unfold Println. rewrite !bind_emit. reflexivity.
  - left. exists w1. reflexivity.
Qed.

(** The three ways [openBrowser] ends. *)
Lemma openBrowser_cases (goos url : string) (w : W) :
  (exists name args w1,
     last args "" = url /\
     openBrowser goos url w = (Done tt, w1, [EvStart name args]))
  \/ (exists name args e w1,
        last args "" = url /\
        openBrowser goos url w
        = (Exited 1, w1,
           [EvStart name args;
            EvPrintln (PStr "Got an error open browser:");
            EvPrintln (PErr e);
            EvLogFatal e]))
  \/ (goos <> "linux" /\ goos <> "windows" /\ goos <> "darwin" /\
      openBrowser goos url w
      = (Exited 1, w,
         [EvPrintln (PStr "Got an error open browser:");
          EvPrintln (PErr (mkError "unsupported platform" None));
          EvLogFatal (mkError "unsupported platform" None)])).
Proof.
  unfold openBrowser.
  destruct (String.eqb_spec goos "linux") as [_|Hl].
  { destruct (openBrowser_started _ "xdg-open" [url] w eq_refl)
      as [(w1 & H) | (e & w1 & H)]; rewrite H.
    - left. exists "xdg-open", [url], w1. split; reflexivity.
    - right. left. exists "xdg-open", [url], e, w1. split; reflexivity. }
  destruct (String.eqb_spec goos "windows") as [_|Hw].
  { destruct (openBrowser_started _ "rundll32"
                ["url.dll,FileProtocolHandler"; url] w eq_refl)
      as [(w1 & H) | (e & w1 & H)]; rewrite H.
    - left. exists "rundll32", ["url.dll,FileProtocolHandler"; url], w1.
      split; reflexivity.
    - right. left.
      exists "rundll32", ["url.dll,FileProtocolHandler"; url], e, w1.
      split; reflexivity. }
  destruct (String.eqb_spec goos "darwin") as [_|Hd].
  { destruct (openBrowser_started _ "open" [url] w eq_refl)
      as [(w1 & H) | (e & w1 & H)]; rewrite H.
    - left. exists "open", [url], w1. split; reflexivity.
    - right. left. exists "open", [url], e, w1. split; reflexivity. }
  right. right. repeat (split; [assumption|]).
  rewrite bind_ret. unfold Println. rewrite !bind_emit. reflexivity.
Qed.

(** [openBrowser] returns or exits with code 1, and never panics.  It
    starts at most one process, whose last argument is the address, and
    calls nothing remote.  It prints nothing when it returns; when it
    exits, its last three events are the two lines of the report and the
    fatal log entry, for one and the same error. *)
Theorem openBrowser_outcomes (goos url : string) (w : W) :
  (fst (fst (openBrowser goos url w)) = Done tt
   /\ occurrences isOutput (snd (openBrowser goos url w)) = 0
   \/ fst (fst (openBrowser goos url w)) = Exited 1
      /\ exists e t0,
           snd (openBrowser goos url w)
           = t0 ++ [EvPrintln (PStr "Got an error open browser:");
                    EvPrintln (PErr e);
                    EvLogFatal e])
  /\ occurrences isStart (snd (openBrowser goos url w)) <= 1
  /\ (forall name args,
        In (EvStart name args) (snd (openBrowser goos url w)) ->
        last args "" = url)
  /\ occurrences isRemoteCall (snd (openBrowser goos url w)) = 0.
Proof.
  destruct (openBrowser_cases goos url w)
    as [(name & args & w1 & Hu & H)
       | [(name & args & e & w1 & Hu & H) | (_ & _ & _ & H)]];
    rewrite H; cbn [fst snd].
  - split; [left; split; reflexivity|]. split; [cbv; lia|].
    split; [|reflexivity].
    intros name' args' [Hin|[]]. injection Hin as _ <-. exact Hu.
  - split; [right; split; [reflexivity|]; exists e, [EvStart name args]; reflexivity|].
    split; [cbv; lia|]. split; [|reflexivity].
    intros name' args' [Hin|[Hin|[Hin|[Hin|[]]]]]; try discriminate Hin.
    injection Hin as _ <-. exact Hu.
  - split; [right; split; [reflexivity|]; eexists; exists []; reflexivity|].
    split; [cbv; lia|]. split; [|reflexivity].
    intros name' args' [Hin|[Hin|[Hin|[]]]]; discriminate Hin.
Qed.

(** On a platform other than linux, windows and darwin no process is
    started: [openBrowser] reports "unsupported platform" and exits with
    code 1, the world untouched. *)
Theorem openBrowser_unsupported (goos url : string) (w : W) :
  goos <> "linux" -> goos <> "windows" -> goos <> "darwin" ->
  openBrowser goos url w
  = (Exited 1, w,
     [EvPrintln (PStr "Got an error open browser:");
      EvPrintln (PErr (mkError "unsupported platform" None));
      EvLogFatal (mkError "unsupported platform" None)]).
Proof.
  intros Hl Hw Hd.
  destruct (openBrowser_cases goos url w)
    as [(name & args & w1 & _ & H)
       | [(name & args & e & w1 & _ & H) | (_ & _ & _ & H)]];
    [| | exact H].
  - unfold openBrowser in H.
    apply String.eqb_neq in Hl, Hw, Hd. rewrite Hl, Hw, Hd in H.
    rewrite bind_ret in H. unfold Println in H. rewrite !bind_emit in H.
    discriminate H.
  - unfold openBrowser in H.
    apply String.eqb_neq in Hl, Hw, Hd. rewrite Hl, Hw, Hd in H.
    rewrite bind_ret in H. unfold Println in H. rewrite !bind_emit in H.
    discriminate H.
Qed.

End Browser.

Lemma openBrowser_unsupported_witness :
  openBrowser "freebsd" "http://ec2-1-2-3-4.compute.amazonaws.com" worldEndToEnd
  = (Exited 1, worldEndToEnd,
     [EvPrintln (PStr "Got an error open browser:");
      EvPrintln (PErr (mkError "unsupported platform" None));
      EvLogFatal (mkError "unsupported platform" None)]).
Proof.
  apply (openBrowser_unsupported "freebsd"
           "http://ec2-1-2-3-4.compute.amazonaws.com" worldEndToEnd);
    discriminate.
Defined.

(** ** The workflow *)

Lemma bind_trace_prefix {W A B} (m : prog W A) (k : A -> prog W B) (w : W) :
  exists t', snd (bind m k w) = snd (m w) ++ t'.
Proof.
  unfold bind. destruct (m w) as [[[a| | |] w1] t1]; cbn [snd];
    try (exists []; symmetry; apply app_nil_r).
  destruct (k a w1) as [[r w2] t2]. exists t2. reflexivity.
Qed.

Lemma defer_trace_prefix {W A} (f : prog W unit) (body : prog W A) (w : W) :
  exists t', snd (defer f body w) = snd (body w) ++ t'.
Proof.
  unfold defer. destruct (body w) as [[[a| msg | |] w1] t1]; cbn [snd];
    try (exists []; symmetry; apply app_nil_r);
    destruct (f w1) as [[r w2] t2]; exists t2; reflexivity.
Qed.

Lemma bind_In {W A B} (m : prog W A) (k : A -> prog W B) (w : W) (e : event) :
  In e (snd (bind m k w)) ->
  In e (snd (m w))
  \/ exists a w1 t1, m w = (Done a, w1, t1) /\ In e (snd (k a w1)).
Proof.
  unfold bind. destruct (m w) as [[[a| | |] w1] t1]; cbn [snd];
    try (intros H; left; exact H).
  destruct (k a w1) as [[r w2] t2] eqn:E. cbn [snd]. intros H.
  apply in_app_or in H. destruct H as [H|H]; [left; exact H|].
  right. exists a, w1, t1. split; [reflexivity|]. rewrite E. exact H.
Qed.

Lemma defer_In {W A} (f : prog W unit) (body : prog W A) (w : W) (e : event) :
  In e (snd (defer f body w)) ->
  In e (snd (body w)) \/ exists w1, In e (snd (f w1)).
Proof.
  unfold defer. destruct (body w) as [[[a| msg | |] w1] t1]; cbn [snd];
    try (intros H; left; exact H);
    destruct (f w1) as [[r w2] t2] eqn:E; cbn [snd]; intros H;
    apply in_app_or in H; destruct H as [H|H];
    try (left; exact H); right; exists w1; rewrite E; exact H.
Qed.

Section Workflow.
Context {W : Type} {env : Env W}.

Lemma createClient_cases (w : W) :
  (exists w1, LoadDefaultConfig w = (None, w1)
              /\ createClient w = (Done tt, w1, [EvLoadDefaultConfig]))
  \/ (exists e w1, LoadDefaultConfig w = (Some e, w1)
                   /\ createClient w
                      = (Panicked ("Configuration error, " ++ errText e)%string,
                         w1, [EvLoadDefaultConfig])).
Proof.
  unfold createClient.
  destruct (LoadDefaultConfig w) as [[e|] w1] eqn:Hc;
    rewrite (bind_call _ _ _ _ _ _ Hc).
  - right. exists e, w1. split; reflexivity.
  - left. exists w1. split; reflexivity.
Qed.





Lemma waitRunning_first_query (instanceId : string) (fuel : nat) (w : W) :
  exists t,
    snd (waitRunning (S fuel) instanceId w)
    = EvDescribeInstances (pollInput instanceId) :: t.
Proof.
  rewrite waitRunning_S.
  match goal with
  | |- context [bind ?m ?k w] => destruct (bind_trace_prefix m k w) as (t & Ht)
  end.
  rewrite Ht. unfold call.
  destruct (DescribeInstances (pollInput instanceId) w) as [r w1].
  exists t. reflexivity.
Qed.

(** The part of [main] that [defer] wraps. *)
Lemma main_eq (fuel : nat) (goos imageId : string) :
  @main W env fuel goos imageId
  = defer duration
      (if String.eqb imageId "" then
         Println (PStr "You must supply an AMI")
       else
         createClient ;;;
         instanceId <- createInstance imageId ;;
         publicDnsName <- waitRunning fuel instanceId ;;
         if negb (String.eqb publicDnsName "") then openBrowser goos publicDnsName
         else ret tt).
Proof. reflexivity. Qed.




(** When the configuration cannot be loaded, [main] panics with the
    configuration error before any remote call, and the deferred start-up
    time is still logged. *)
Theorem main_config_error
    (fuel : nat) (goos imageId : string) (w w1 : W) (e : error) :
  imageId <> "" ->
  LoadDefaultConfig w = (Some e, w1) ->
  main fuel goos imageId w
  = (Panicked ("Configuration error, " ++ errText e)%string, w1,
     [EvLoadDefaultConfig; startUpNotice]).
Proof.
  intros Hi Hc. rewrite main_eq. apply String.eqb_neq in Hi. rewrite Hi.
  destruct (createClient_cases w) as [(w2 & Hn & _) | (e' & w2 & Hs & Hrun)].
  - rewrite Hc in Hn. discriminate Hn.
  - rewrite Hc in Hs. injection Hs as <- <-.
    unfold defer. rewrite (bind_Panicked _ _ _ _ _ _ Hrun). reflexivity.
Qed.

(** [main] does not look at what [createInstance] returned: the poller is
    asked to wait for that identifier, be it the empty string of a failed
    launch, and its first status query follows the launcher's events. *)
Theorem main_polls_whatever_was_launched
    (fuel : nat) (goos imageId : string) (w w1 w2 : W)
    (t2 : list event) (instanceId : string) :
  imageId <> "" ->
  LoadDefaultConfig w = (None, w1) ->
  createInstance imageId w1 = (Done instanceId, w2, t2) ->
  exists t3,
    snd (main (S fuel) goos imageId w)
    = EvLoadDefaultConfig :: t2
        ++ EvDescribeInstances (pollInput instanceId) :: t3.
Proof.
  intros Hi Hc Hl. rewrite main_eq. apply String.eqb_neq in Hi. rewrite Hi.
  destruct (defer_trace_prefix duration
              (createClient ;;;
               instanceId <- createInstance imageId ;;
               publicDnsName <- waitRunning (S fuel) instanceId ;;
               if negb (String.eqb publicDnsName "")
               then openBrowser goos publicDnsName
               else ret tt) w) as (t' & Ht').
  rewrite Ht'. clear Ht'.
  destruct (createClient_cases w) as [(w1' & Hn & Hrun) | (e & w1' & Hs & _)];
    [|rewrite Hc in Hs; discriminate Hs].
  rewrite Hc in Hn. injection Hn as <-.
  rewrite (bind_Done _ _ _ _ _ _ Hrun), (bind_Done _ _ _ _ _ _ Hl).
  destruct (bind_trace_prefix (waitRunning (S fuel) instanceId)
              (fun publicDnsName =>
                 if negb (String.eqb publicDnsName "")
                 then openBrowser goos publicDnsName
                 else ret tt) w2) as (t4 & Ht4).
  destruct (waitRunning_first_query instanceId fuel w2) as (t5 & Ht5).
  rewrite Ht5 in Ht4.
  match goal with
  | |- context [after [EvLoadDefaultConfig] (after t2 ?x)] =>
      destruct x as [[r6 w6] t6] eqn:E6
  end.
  cbn [snd] in Ht4. cbn [after snd]. rewrite Ht4. cbn [app].
  rewrite <- !app_assoc. cbn [app]. eexists. reflexivity.
Qed.

End Workflow.

Lemma main_config_error_witness :
  main 5 "linux" "ami-123" worldConfigFails
  = (Panicked "Configuration error, failed to retrieve credentials",
     snd (LoadDefaultConfig worldConfigFails),
     [EvLoadDefaultConfig; startUpNotice]).
Proof.
  apply (main_config_error 5 "linux" "ami-123" worldConfigFails
           (snd (LoadDefaultConfig worldConfigFails)) noCredentials);
    [discriminate | reflexivity].
Defined.

Lemma main_polls_whatever_was_launched_witness :
  exists t3,
    snd (main 1 "linux" "ami-123" worldLaunchFails)
    = EvLoadDefaultConfig
        :: [EvDescribeSecurityGroups groupLookup;
            EvRunInstances (launchInput "ami-123" "sg-123");
            EvPrintln (PStr "Got an error creating an instance:");
            EvPrintln (PErr imageNotFound)]
        ++ EvDescribeInstances (pollInput "") :: t3.
Proof.
  apply (main_polls_whatever_was_launched 0 "linux" "ami-123" worldLaunchFails
           (snd (LoadDefaultConfig worldLaunchFails))
           (snd (fst (createInstance "ami-123"
                        (snd (LoadDefaultConfig worldLaunchFails)))))
           [EvDescribeSecurityGroups groupLookup;
            EvRunInstances (launchInput "ami-123" "sg-123");
            EvPrintln (PStr "Got an error creating an instance:");
            EvPrintln (PErr imageNotFound)]
           "");
    [discriminate | reflexivity | reflexivity].
Defined.

Section WorkflowBrowser.
Context {W : Type} {env : Env W}.

Lemma not_in_emitted {W' A} (P : event -> Prop) (m : prog W' A) (w : W') (e : event) :
  emits P m -> In e (snd (m w)) -> P e.
Proof. intros H Hin. specialize (H w). rewrite Forall_forall in H. auto. Qed.

(** [main] starts a process only for an instance it has seen running:
    whenever a run starts one, the configuration was loaded, the launcher
    returned an identifier, a status query for that identifier reported an
    instance with status code 16, and the last argument of the process is
    ["http://"] followed by that instance's public address. *)
Theorem main_browser_only_for_running
    (fuel : nat) (goos imageId : string) (w : W)
    (name : string) (args : list string) :
  In (EvStart name args) (snd (main fuel goos imageId w)) ->
  exists w1 w2 t2 instanceId n out i dns,
    LoadDefaultConfig w = (None, w1) /\
    createInstance imageId w1 = (Done instanceId, w2, t2) /\
    n < fuel /\
    pollResponse (pollInput instanceId) n w2 = inl out /\
    In i (instancesOf out) /\
    stateCode i = Some 16%Z /\
    PublicDnsName i = Some dns /\
    last args "" = ("http://" ++ dns)%string.
Proof.
  rewrite main_eq. intros H.
  apply defer_In in H. destruct H as [H | (w' & [H|[]])]; [|discriminate H].
  destruct (String.eqb imageId "").
  { destruct H as [H|[]]. discriminate H. }
  apply bind_In in H. destruct H as [H | ([] & w1 & t1 & Hclient & H)].
  { exfalso.
    assert (Hn : isStart (EvStart name args) = false);
      [|discriminate Hn].
    apply (not_in_emitted (fun e => isStart e = false) createClient w); [|exact H].
    unfold createClient. shape. reflexivity. }
  apply bind_In in H. destruct H as [H | (iid & w2 & t2 & Hlaunch & H)].
  { exfalso.
    assert (Hn : isStart (EvStart name args) = false);
      [|discriminate Hn].
    apply (not_in_emitted (fun e => isStart e = false)
             (createInstance imageId) w1); [|exact H].
    apply createInstance_emits; intros; reflexivity. }
  apply bind_In in H. destruct H as [H | (s & w3 & t3 & Hwait & H)].
  { exfalso.
    pose proof (not_in_emitted _ _ _ _ (waitRunning_emits iid fuel) H)
      as [He | [He | [He | [He | (v & He)]]]]; discriminate He. }
  destruct (String.eqb_spec s "") as [->|Hs]; cbn [negb] in H; [destruct H|].
  assert (Hargs : last args "" = s).
  { destruct (openBrowser_cases goos s w3)
      as [(name' & args' & w4 & Hu & Hb)
         | [(name' & args' & e & w4 & Hu & Hb) | (_ & _ & _ & Hb)]];
      rewrite Hb in H; cbn [snd] in H.
    - destruct H as [H|[]]. injection H as _ <-. exact Hu.
    - destruct H as [H|[H|[H|[H|[]]]]]; try discriminate H.
      injection H as _ <-. exact Hu.
    - destruct H as [H|[H|[H|[]]]]; discriminate H. }
  destruct (createClient_cases w) as [(w1' & Hc & Hrun) | (e & w1' & _ & Hrun)];
    rewrite Hrun in Hclient; [|discriminate Hclient].
  injection Hclient as <- _.
  apply waitRunning_Done in Hwait.
  destruct Hwait as (n & Hn & _ & _ & [(e & _ & He) | (out & i & Hr & Hd & Hv)]);
    [destruct (Hs He)|].
  destruct Hv as [(Hcode & dns & Hdns & Hurl) | (c & _ & _ & _ & He)];
    [|destruct (Hs He)].
  exists w1', w2, t2, iid, n, out, i, dns.
  repeat split; try assumption.
  - destruct Hd as (pend & rest & Hl & _). rewrite Hl. apply in_elt.
  - rewrite Hargs. exact Hurl.
Qed.

(** The whole workflow on Linux.  With an image identifier, a working
    configuration and a launcher that returns an identifier, [n] pending
    answers followed by a running instance make [main] start [xdg-open]
    with ["http://"] and the instance's public address; when that start
    succeeds [main] returns, having slept three seconds [n] times and
    seven once, and the start-up time is its last event. *)
Theorem main_opens_running_instance
    (fuel n : nat) (imageId : string) (w w1 w2 w4 : W)
    (t2 : list event) (instanceId : string)
    (out : DescribeInstancesOutput) (pend rest : list Instance)
    (i : Instance) (dns : string) :
  imageId <> "" ->
  LoadDefaultConfig w = (None, w1) ->
  createInstance imageId w1 = (Done instanceId, w2, t2) ->
  (forall k, k < n ->
     pendingResponse (pollResponse (pollInput instanceId) k w2) = true) ->
  pollResponse (pollInput instanceId) n w2 = inl out ->
  instancesOf out = pend ++ i :: rest ->
  forallb isPending pend = true ->
  stateCode i = Some 16%Z ->
  PublicDnsName i = Some dns ->
  n < fuel ->
  Start "xdg-open" [("http://" ++ dns)%string]
        (pollState (pollInput instanceId) (S n) w2) = (None, w4) ->
  exists t3,
    main fuel "linux" imageId w
    = (Done tt, w4,
       EvLoadDefaultConfig :: t2 ++ t3
         ++ [EvStart "xdg-open" [("http://" ++ dns)%string]; startUpNotice])
    /\ sleeps t3 = repeat 3%Z n ++ [7%Z]
    /\ occurrences isQuery t3 = S n.
Proof.
  intros Hi Hc Hl Hpre Hn Hinst Hp Hcode Hdns Hfuel Hstart.
  destruct (waitRunning_pending_prefix instanceId n w2 Hpre) as (t0 & Hs & Hq & Hrun).
  pose proof (poll_split (pollInput instanceId) n w2) as Hsplit.
  rewrite Hn in Hsplit.
  assert (Hwait : waitRunning fuel instanceId w2
    = (Done ("http://" ++ dns)%string,
       pollState (pollInput instanceId) (S n) w2,
       t0 ++ EvDescribeInstances (pollInput instanceId)
          :: stillPending (length pend) ++ [EvSleep 7])).
  { replace fuel with (n + S (fuel - S n)) by lia. rewrite Hrun.
    rewrite (waitRunning_step_running _ _ _ _ _ _ _ _ _ Hsplit Hinst Hp Hcode Hdns).
    reflexivity. }
  exists (t0 ++ EvDescribeInstances (pollInput instanceId)
             :: stillPending (length pend) ++ [EvSleep 7]).
  split; [|split].
  - rewrite main_eq. apply String.eqb_neq in Hi. rewrite Hi.
    destruct (createClient_cases w) as [(w1' & Hc' & Hclient) | (e & w1' & Hc' & _)];
      rewrite Hc in Hc'; [|discriminate Hc'].
    injection Hc' as <-.
    unfold defer.
    rewrite (bind_Done _ _ _ _ _ _ Hclient), (bind_Done _ _ _ _ _ _ Hl),
      (bind_Done _ _ _ _ _ _ Hwait).
    change (negb (String.eqb ("http://" ++ dns)%string "")) with true. cbv iota.
    unfold openBrowser. change (String.eqb "linux" "linux") with true. cbv iota.
    rewrite (bind_call _ _ _ _ _ _ Hstart).
    cbn [after ret duration LogPrintf emit app]. unfold startUpNotice.
    do 3 (rewrite <- ?app_assoc; cbn [app]). reflexivity.
  - rewrite sleeps_app, Hs. cbn [sleeps].
    rewrite sleeps_app, sleeps_stillPending. reflexivity.
  - rewrite occurrences_app, occurrences_cons, occurrences_app,
      occurrences_stillPending, Hq by reflexivity.
    cbn [isQuery occurrences filter length]. lia.
Qed.

End WorkflowBrowser.

Lemma main_browser_only_for_running_witness :
  exists w1 w2 t2 instanceId n out i dns,
    LoadDefaultConfig worldEndToEnd = (None, w1) /\
    createInstance "ami-123" w1 = (Done instanceId, w2, t2) /\
    n < 2 /\
    pollResponse (pollInput instanceId) n w2 = inl out /\
    In i (instancesOf out) /\
    stateCode i = Some 16%Z /\
    PublicDnsName i = Some dns /\
    last ["http://ec2-1-2-3-4.compute.amazonaws.com"] ""
    = ("http://" ++ dns)%string.
Proof.
  apply (main_browser_only_for_running 2 "linux" "ami-123" worldEndToEnd
           "xdg-open" ["http://ec2-1-2-3-4.compute.amazonaws.com"]).
  vm_compute. tauto.
Defined.

Lemma main_opens_running_instance_witness :
  exists t3,
    main 2 "linux" "ami-123" worldEndToEnd
    = (Done tt, snd (fst (main 2 "linux" "ami-123" worldEndToEnd)),
       EvLoadDefaultConfig
         :: [EvDescribeSecurityGroups groupLookup;
             EvRunInstances (launchInput "ami-123" "sg-123");
             EvCreateTags (tagInput "i-abc")]
         ++ t3
         ++ [EvStart "xdg-open" ["http://ec2-1-2-3-4.compute.amazonaws.com"];
             startUpNotice])
    /\ sleeps t3 = repeat 3%Z 1 ++ [7%Z]
    /\ occurrences isQuery t3 = 2.
Proof.
  apply (main_opens_running_instance 2 1 "ami-123" worldEndToEnd
           (snd (LoadDefaultConfig worldEndToEnd))
           (snd (fst (createInstance "ami-123"
                        (snd (LoadDefaultConfig worldEndToEnd)))))
           (snd (fst (main 2 "linux" "ami-123" worldEndToEnd)))
           [EvDescribeSecurityGroups groupLookup;
            EvRunInstances (launchInput "ami-123" "sg-123");
            EvCreateTags (tagInput "i-abc")]
           "i-abc"
           {| Reservations :=
                [ {| r_Instances :=
                       [instanceWith 16 "ec2-1-2-3-4.compute.amazonaws.com"] |} ] |}
           [] [] (instanceWith 16 "ec2-1-2-3-4.compute.amazonaws.com")
           "ec2-1-2-3-4.compute.amazonaws.com");
    try reflexivity; try discriminate; try lia.
  intros k Hk. destruct k as [|k]; [reflexivity | lia].
Defined.

(** ** Nil pointers in a status answer *)

Section PollerPanics.
Context {W : Type} {env : Env W}.

Lemma scanInstances_cons_no_code (i : Instance) (rest : list Instance) (w : W) :
  stateCode i = None ->
  scanInstances (i :: rest) w
  = (Panicked "invalid memory address or nil pointer dereference", w, []).
Proof.
  unfold stateCode. intros Hc. rewrite scanInstances_cons.
  destruct (State i) as [st|]; [|reflexivity].
  unfold deref at 1. rewrite bind_ret. cbv beta. rewrite Hc. reflexivity.
Qed.

Lemma scanInstances_cons_running_no_dns (i : Instance) (rest : list Instance) (w : W) :
  stateCode i = Some 16%Z -> PublicDnsName i = None ->
  scanInstances (i :: rest) w
  = (Panicked "invalid memory address or nil pointer dereference", w, [EvSleep 7]).
Proof.
  unfold stateCode. intros Hc Hd. rewrite scanInstances_cons.
  destruct (State i) as [st|]; [|discriminate].
  unfold deref at 1. rewrite bind_ret. cbv beta. rewrite Hc.
  unfold deref at 1. rewrite bind_ret. cbv beta.
  change (16 =? 16)%Z with true. cbv iota.
  unfold Sleep. rewrite bind_emit, Hd. reflexivity.
Qed.

(** A panic inside the ranges is the panic of the round. *)
Lemma waitRunning_step_panics fuel instanceId (w w1 : W) out pend i rest msg t :
  DescribeInstances (pollInput instanceId) w = (inl out, w1) ->
  instancesOf out = pend ++ i :: rest ->
  forallb isPending pend = true ->
  scanInstances (i :: rest) w1 = (Panicked msg, w1, t) ->
  waitRunning (S fuel) instanceId w
  = (Panicked msg, w1,
     EvDescribeInstances (pollInput instanceId)
       :: stillPending (length pend) ++ t).
Proof.
  intros Hq Hl Hp Hscan. rewrite waitRunning_S, (bind_call _ _ _ _ _ _ Hq).
  assert (E : scanReservations (Reservations out) w1
              = (Panicked msg, w1, stillPending (length pend) ++ t)).
  { rewrite scanReservations_flat. fold (instancesOf out).
    rewrite Hl, (scanInstances_pending _ _ w1 Hp), Hscan. reflexivity. }
  rewrite (bind_Panicked _ _ _ _ _ _ E). reflexivity.
Qed.

(** The program dereferences what the answer holds without a check.  When
    the first instance that is not pending comes without a state or a
    status code, [waitRunning] panics on the nil pointer in that round;
    when it comes as running without a public address the panic follows
    the settle sleep of seven seconds.  In both cases nothing is
    returned. *)
Theorem waitRunning_nil_pointer_panics
    (instanceId : string) (w : W) (fuel n : nat)
    (out : DescribeInstancesOutput) (pend rest : list Instance) (i : Instance) :
  (forall k, k < n ->
     pendingResponse (pollResponse (pollInput instanceId) k w) = true) ->
  pollResponse (pollInput instanceId) n w = inl out ->
  instancesOf out = pend ++ i :: rest ->
  forallb isPending pend = true ->
  n < fuel ->
  (stateCode i = None ->
   exists t,
     waitRunning fuel instanceId w
     = (Panicked "invalid memory address or nil pointer dereference",
        pollState (pollInput instanceId) (S n) w, t)
     /\ occurrences isQuery t = S n
     /\ sleeps t = repeat 3%Z n)
  /\ (stateCode i = Some 16%Z -> PublicDnsName i = None ->
      exists t,
        waitRunning fuel instanceId w
        = (Panicked "invalid memory address or nil pointer dereference",
           pollState (pollInput instanceId) (S n) w, t)
        /\ occurrences isQuery t = S n
        /\ sleeps t = repeat 3%Z n ++ [7%Z]).
Proof.
  intros Hpre Hn Hl Hp Hfuel.
  destruct (waitRunning_pending_prefix instanceId n w Hpre) as (t0 & Hs & Hq & Hrun).
  pose proof (poll_split (pollInput instanceId) n w) as Hsplit.
  rewrite Hn in Hsplit.
  replace fuel with (n + S (fuel - S n)) by lia. rewrite Hrun.
  split.
  - intros Hc.
    rewrite (waitRunning_step_panics _ _ _ _ _ _ _ _ _ _ Hsplit Hl Hp
               (scanInstances_cons_no_code i rest _ Hc)).
    eexists. split; [reflexivity|]. split.
    + rewrite occurrences_app, occurrences_cons, occurrences_app,
        occurrences_stillPending, Hq by reflexivity.
      cbn [isQuery occurrences filter length]. lia.
    + rewrite sleeps_app, Hs. cbn [sleeps].
      rewrite sleeps_app, sleeps_stillPending. apply app_nil_r.
  - intros Hc Hd.
    rewrite (waitRunning_step_panics _ _ _ _ _ _ _ _ _ _ Hsplit Hl Hp
               (scanInstances_cons_running_no_dns i rest _ Hc Hd)).
    eexists. split; [reflexivity|]. split.
    + rewrite occurrences_app, occurrences_cons, occurrences_app,
        occurrences_stillPending, Hq by reflexivity.
      cbn [isQuery occurrences filter length]. lia.
    + rewrite sleeps_app, Hs. cbn [sleeps].
      rewrite sleeps_app, sleeps_stillPending. reflexivity.
Qed.

End PollerPanics.

Lemma waitRunning_nil_pointer_panics_witness :
  exists t,
    waitRunning 5 "i-abc" worldNoState
    = (Panicked "invalid memory address or nil pointer dereference",
       pollState (pollInput "i-abc") 2 worldNoState, t)
    /\ occurrences isQuery t = 2
    /\ sleeps t = repeat 3%Z 1.
Proof.
  refine (proj1 (waitRunning_nil_pointer_panics "i-abc" worldNoState 5 1
                   {| Reservations := [ {| r_Instances := [statelessInstance] |} ] |}
                   [] [] statelessInstance _ eq_refl eq_refl eq_refl _) eq_refl).
  - intros k Hk. destruct k as [|k]; [reflexivity | lia].
  - lia.
Defined.
